(** * backlog-quick: a shallow embedding of the browser extension

    The extension has four pieces of logic that carry behaviour:
    - the data-URL decoder [dataURLtoBlob], present twice
      (popup.tsx and contents/backlog-form-filler.ts);
    - the REST client [BacklogAPIClient] (URL building, error mapping);
    - the screenshot service of the background worker and its caller
      in the popup;
    - the staged handoff between the popup ([openBacklogIssuePage]) and
      the content script ([fillForm]).

    JavaScript strings are modelled by [string], one [ascii] per code
    unit, so the model covers code units below 256 (data URLs, host
    names, identifiers and HTTP bodies in Latin-1).  Numbers that the
    code only uses as integers (HTTP status, epoch milliseconds, byte
    values) are [Z]. *)

From Stdlib Require Import ZArith List Ascii String Lia.
From stdpp Require Import base option list strings gmap pretty.

Local Open Scope string_scope.
Local Open Scope Z_scope.

(** ** The JavaScript built-ins the sources call *)

Module Js.

(** An [Error] object: its [name] and its [message]. *)
Record Error := mkError { name : string; message : string }.

(** Completion of a call: a value, or a thrown [Error]. For an
    [async] function [Throw] is the rejection of its promise. *)
Inductive result (A : Type) : Type :=
| Ok (a : A)
| Throw (e : Error).
Arguments Ok {A} a.
Arguments Throw {A} e.

Definition bind {A B} (r : result A) (k : A -> result B) : result B :=
  match r with
  | Ok a => k a
  | Throw e => Throw e
  end.

(** A value that may be [undefined] or [null] is an [option];
    [truthy] is the ToBoolean of such a string: absent and empty
    strings are falsy. *)
Definition truthy (v : option string) : bool :=
  match v with
  | Some (String _ _) => true
  | _ => false
  end.

(** [a || d] on strings. *)
Definition or_else (v : option string) (d : string) : string :=
  match v with
  | Some (String c s) => String c s
  | _ => d
  end.

(** [a || null]. *)
Definition or_null (v : string) : option string :=
  match v with
  | String c s => Some (String c s)
  | EmptyString => None
  end.

Fixpoint starts_with (p s : string) : bool :=
  match p, s with
  | EmptyString, _ => true
  | String a p', String b s' => if Ascii.eqb a b then starts_with p' s' else false
  | String _ _, EmptyString => false
  end.

(** [s.split(sep)] for a one-character separator: never empty. *)
Fixpoint split (sep : ascii) (s : string) : list string :=
  match s with
  | EmptyString => [EmptyString]
  | String c s' =>
      if Ascii.eqb c sep then EmptyString :: split sep s'
      else match split sep s' with
           | h :: t => String c h :: t
           | [] => [String c EmptyString]
           end
  end.

(** [arr.join(sep)]. *)
Fixpoint join (sep : string) (l : list string) : string :=
  match l with
  | [] => EmptyString
  | [x] => x
  | x :: rest => x +:+ sep +:+ join sep rest
  end.

(** The characters the regular-expression atom [.] refuses (without
    the [s] flag): LF and CR; U+2028 and U+2029 are outside the
    modelled code units. *)
Definition is_line_terminator (c : ascii) : bool :=
  Ascii.eqb c "010"%char || Ascii.eqb c "013"%char.

Fixpoint has_line_terminator (s : string) : bool :=
  match s with
  | EmptyString => false
  | String c s' => is_line_terminator c || has_line_terminator s'
  end.

(** [s.charCodeAt(i)]: [None] is NaN (index out of range). *)
Definition charCodeAt (s : string) (i : nat) : option Z :=
  match String.get i s with
  | Some c => Some (Z.of_N (N_of_ascii c))
  | None => None
  end.

(** The conversion a [Uint8Array] applies to a stored number. *)
Definition to_uint8 (v : option Z) : Z :=
  match v with
  | Some z => z mod 256
  | None => 0
  end.

(** *** [atob]: the forgiving-base64 decode of the HTML standard *)

Definition is_ascii_whitespace (c : ascii) : bool :=
  match N_of_ascii c with
  | 9%N | 10%N | 12%N | 13%N | 32%N => true
  | _ => false
  end.

Definition b64_value (c : ascii) : option Z :=
  let n := Z.of_N (N_of_ascii c) in
  if (65 <=? n) && (n <=? 90) then Some (n - 65)
  else if (97 <=? n) && (n <=? 122) then Some (n - 97 + 26)
  else if (48 <=? n) && (n <=? 57) then Some (n - 48 + 52)
  else if n =? 43 then Some 62
  else if n =? 47 then Some 63
  else None.

(** Step 2: with a length divisible by four, one or two trailing
    [=] are dropped. The argument is the reversed input. *)
Definition strip_padding_rev (rev_data : list ascii) : list ascii :=
  match rev_data with
  | "="%char :: "="%char :: rest => rest
  | "="%char :: rest => rest
  | _ => rev_data
  end.

Fixpoint b64_values (data : list ascii) : option (list Z) :=
  match data with
  | [] => Some []
  | c :: rest =>
      match b64_value c, b64_values rest with
      | Some v, Some vs => Some (v :: vs)
      | _, _ => None
      end
  end.

Definition byte_char (z : Z) : ascii := ascii_of_N (Z.to_N (z mod 256)).

(** Steps 6 to 10: 24 bits give three bytes; a rest of 12 bits gives
    one byte and a rest of 18 bits two. *)
Fixpoint b64_bytes (vs : list Z) : list ascii :=
  match vs with
  | a :: b :: c :: d :: rest =>
      let w := ((a * 64 + b) * 64 + c) * 64 + d in
      byte_char (w / 65536) :: byte_char (w / 256) :: byte_char w :: b64_bytes rest
  | [a; b; c] =>
      let w := ((a * 64 + b) * 64 + c) / 4 in
      [byte_char (w / 256); byte_char w]
  | [a; b] =>
      let w := (a * 64 + b) / 16 in
      [byte_char w]
  | _ => []
  end.

Definition invalid_character : Error :=
  mkError "InvalidCharacterError" "The string to be decoded is not correctly encoded.".

Definition atob (data : string) : result string :=
  let d1 := filter (fun c => is_ascii_whitespace c = false) (list_ascii_of_string data) in
  let d2 := if (Z.of_nat (length d1) mod 4 =? 0)
            then rev (strip_padding_rev (rev d1)) else d1 in
  if Z.of_nat (length d2) mod 4 =? 1 then Throw invalid_character
  else match b64_values d2 with
       | Some vs => Ok (string_of_list_ascii (b64_bytes vs))
       | None => Throw invalid_character
       end.

(** [atob(x)] where [x] may be [undefined]: the argument is first
    converted to a string. *)
Definition atob_arg (x : option string) : result string :=
  atob (default "undefined" x).

(** *** The two regular expressions of the sources

    Both are unanchored and used through [String.prototype.match]
    without the [g] flag: the leftmost start position wins, and at a
    start position the quantifier decides the order of the attempts. *)

(** [(.*?);] from a fixed position: the lazy quantifier tries the
    empty group first and grows by one character that [.] accepts. *)
Fixpoint lazy_dots_semicolon (s : string) : option string :=
  match s with
  | EmptyString => None
  | String c s' =>
      if Ascii.eqb c ";"%char then Some EmptyString
      else if is_line_terminator c then None
      else option_map (String c) (lazy_dots_semicolon s')
  end.

(** [s.match(/:(.*?);/)?.[1]]. *)
Fixpoint match_mime (s : string) : option string :=
  match s with
  | EmptyString => None
  | String c s' =>
      if Ascii.eqb c ":"%char then
        match lazy_dots_semicolon s' with
        | Some g => Some g
        | None => match_mime s'
        end
      else match_mime s'
  end.

(** [(.+)\/api] from a fixed position: the greedy quantifier takes
    the longest run that [.] accepts and gives characters back until
    [/api] follows. *)
Fixpoint greedy_dots_api (s : string) : option string :=
  match s with
  | EmptyString => None
  | String c s' =>
      if is_line_terminator c then None
      else match greedy_dots_api s' with
           | Some g => Some (String c g)
           | None => if starts_with "/api" s' then Some (String c EmptyString) else None
           end
  end.

(** The rest of [s] after the literal [p], when [s] starts with it. *)
Fixpoint strip_prefix (p s : string) : option string :=
  match p, s with
  | EmptyString, _ => Some s
  | String a p', String b s' => if Ascii.eqb a b then strip_prefix p' s' else None
  | String _ _, EmptyString => None
  end.

(** [https:\/\/(.+)\/api] tried at the start of [s]. *)
Definition match_space_here (s : string) : option string :=
  match strip_prefix "https://" s with
  | Some rest => greedy_dots_api rest
  | None => None
  end.

(** [s.match(/https:\/\/(.+)\/api/)?.[1]]. *)
Fixpoint match_space (s : string) : option string :=
  match match_space_here s with
  | Some g => Some g
  | None =>
      match s with
      | EmptyString => None
      | String _ s' => match_space s'
      end
  end.

(** [s.trim()]: white space and line terminators among the modelled
    code units (TAB, LF, VT, FF, CR, SPACE, NBSP). *)
Definition is_trim_space (c : ascii) : bool :=
  match N_of_ascii c with
  | 9%N | 10%N | 11%N | 12%N | 13%N | 32%N | 160%N => true
  | _ => false
  end.

Fixpoint trim_start (l : list ascii) : list ascii :=
  match l with
  | c :: rest => if is_trim_space c then trim_start rest else l
  | [] => []
  end.

Definition trim (s : string) : string :=
  string_of_list_ascii (rev (trim_start (rev (trim_start (list_ascii_of_string s))))).

(** A [Blob] built from one [Uint8Array]. *)
Record Blob := mkBlob { blob_bytes : list Z; blob_type : string }.

End Js.

Import Js.

(** ** lib/backlog-api.ts: the REST client *)

Module BacklogApi.

Record BacklogAPIClient := mkClient {
  baseURL : string;
  apiKey : string;
  defaultTimeout : Z
}.

Definition constructor (space apiKey : string) : result BacklogAPIClient :=
  if negb (truthy (Some space)) || negb (truthy (Some apiKey)) then
    Throw (mkError "Error" "Backlog API credentials are required")
  else
    Ok (mkClient ("https://" +:+ space +:+ "/api/v2") apiKey 30000).

Definition getIssueUrl (c : BacklogAPIClient) (issueKey : string) : string :=
  let space := or_else (match_space (baseURL c)) "" in
  "https://" +:+ space +:+ "/view/" +:+ issueKey.

(** *** Error responses *)

(** The body of an error response as the code casts it:
    [{ errors?: { message: string }[] }]. *)
Record ApiError := mkApiError { err_message : string }.
Record ErrorData := mkErrorData { errors : option (list ApiError) }.

(** A [Response] as [handleErrorResponse] reads it: the status and
    what [response.json()] settles to ([Throw]: the body does not
    parse; [Ok None]: the body is [null]). *)
Record Response := mkResponse {
  status : Z;
  json : result (option ErrorData)
}.

Definition ok (r : Response) : bool := (200 <=? status r) && (status r <=? 299).

(** The [try] block: the message taken from the body, when there is
    one; the [catch] keeps the initial text. *)
Definition body_message (r : Response) (message : string) : string :=
  match json r with
  | Ok (Some errorData) =>
      match errors errorData with
      | Some es => join ", " (map err_message es)
      | None => message
      end
  | Ok None => message
  | Throw _ => message
  end.

Definition handleErrorResponse (r : Response) : result unit :=
  let status := status r in
  let message := "Backlog API error" in
  let message := body_message r message in
  let message :=
    if status =? 401 then "Invalid API key or unauthorized access"
    else if status =? 404 then "Resource not found"
    else if status =? 429 then "Rate limit exceeded. Please try again later"
    else message in
  Throw (mkError "Error" (message +:+ " (Status: " +:+ pretty status +:+ ")")).

(** The mapping as the interface description words it: a fixed text
    for 401, 404 and 429, otherwise the messages of the body, and
    the generic text when the body carries none. *)
Definition documented_message (status : Z) (body : result (option ErrorData)) : string :=
  match status with
  | 401 => "Invalid API key or unauthorized access"
  | 404 => "Resource not found"
  | 429 => "Rate limit exceeded. Please try again later"
  | _ =>
      match body with
      | Ok (Some (mkErrorData (Some es))) => join ", " (map err_message es)
      | _ => "Backlog API error"
      end
  end.

(** *** Request URLs *)

(** A [URL] object: the parsed address without its query, and the
    query as [url.searchParams] lists it. *)
Record URL := mkURL { address : string; searchParams : list (string * string) }.

Definition searchParams_append (u : URL) (key value : string) : URL :=
  mkURL (address u) (searchParams u ++ [(key, value)]).

(** A value of [params]: [string | number | undefined]. *)
Inductive ParamValue :=
| PString (s : string)
| PNumber (n : Z).

Definition String_of (v : ParamValue) : string :=
  match v with
  | PString s => s
  | PNumber n => pretty n
  end.

(** [params[key] = value] on an object kept as the list of its
    entries: an existing key keeps its place. *)
Fixpoint set_property (params : list (string * option ParamValue))
         (key : string) (value : option ParamValue) : list (string * option ParamValue) :=
  match params with
  | [] => [(key, value)]
  | (k, v) :: rest =>
      if String.eqb k key then (k, value) :: rest
      else (k, v) :: set_property rest key value
  end.

(** The [forEach] over [Object.entries(params)]. *)
Fixpoint append_defined (u : URL) (entries : list (string * option ParamValue)) : URL :=
  match entries with
  | [] => u
  | (key, Some value) :: rest => append_defined (searchParams_append u key (String_of value)) rest
  | (key, None) :: rest => append_defined u rest
  end.

(** The operations the client offers. *)
Inductive Operation :=
| getProjects
| getProject (projectIdOrKey : string)
| getIssueTypes (projectIdOrKey : string)
| getPriorities
| getUsers (projectIdOrKey : string)
| getCategories (projectIdOrKey : string)
| createIssue (body : string)
| uploadAttachmentFromBlob (blob : Blob) (filename : string)
| getMyself
| testConnection.

Section Requests.

(** [new URL(text)] of the browser: it throws on a text that is
    not an absolute URL and otherwise splits off the query. *)
Variable new_URL : string -> result URL.

(** The address [request] hands to [fetchWithTimeout]
    ([url.toString()] of this object). *)
Definition request_url (c : BacklogAPIClient) (endpoint : string)
           (params : list (string * option ParamValue)) : result URL :=
  let params := set_property params "apiKey" (Some (PString (apiKey c))) in
  bind (new_URL (baseURL c +:+ endpoint)) (fun url =>
    Ok (append_defined url params)).

(** The address [uploadAttachmentFromBlob] fetches. *)
Definition upload_url (c : BacklogAPIClient) : result URL :=
  bind (new_URL (baseURL c +:+ "/space/attachment")) (fun url =>
    Ok (searchParams_append url "apiKey" (apiKey c))).

(** The address each operation fetches; none of them passes
    [params], so [request] starts from the empty object. *)
Definition operation_url (c : BacklogAPIClient) (op : Operation) : result URL :=
  match op with
  | getProjects => request_url c "/projects" []
  | getProject k => request_url c ("/projects/" +:+ k) []
  | getIssueTypes k => request_url c ("/projects/" +:+ k +:+ "/issueTypes") []
  | getPriorities => request_url c "/priorities" []
  | getUsers k => request_url c ("/projects/" +:+ k +:+ "/users") []
  | getCategories k => request_url c ("/projects/" +:+ k +:+ "/categories") []
  | createIssue _ => request_url c "/issues" []
  | uploadAttachmentFromBlob _ _ => upload_url c
  | getMyself => request_url c "/users/myself" []
  | testConnection => request_url c "/users/myself" []
  end.

End Requests.

End BacklogApi.

(** ** The staged handoff record and the extension's local storage *)

Module Handoff.

(** The object stored under [backlogQuickFormData]. A field holding
    [null] is [None]. [timestamp] is [None] when the stored object
    has no such property. *)
Record FormData := mkFormData {
  summary : option string;
  description : option string;
  issueTypeId : option string;
  priorityId : option string;
  assigneeId : option string;
  screenshotDataUrl : option string;
  timestamp : option Z
}.

Definition key : string := "backlogQuickFormData".

End Handoff.

(** ** background.ts: the screenshot service *)

Module Background.

Record Tab := mkTab { tab_id : option Z; windowId : Z }.

(** The two [chrome.tabs] calls the service makes. *)
Record Tabs := mkTabs {
  query : result (list Tab);
  captureVisibleTab : Z -> result string
}.

(** [!tab?.id]: no tab, no id, or the id 0. *)
Definition no_tab_id (tab : option Tab) : bool :=
  match tab with
  | Some t => match tab_id t with
              | Some i => i =? 0
              | None => true
              end
  | None => true
  end.

Definition captureScreenshot (tabs : Tabs) : result string :=
  bind (query tabs) (fun found =>
    let tab := found !! 0%nat in
    if no_tab_id tab then Throw (mkError "Error" "No active tab found")
    else match tab with
         | Some t => bind (captureVisibleTab tabs (windowId t)) (fun dataUrl => Ok dataUrl)
         | None => Throw (mkError "Error" "No active tab found")
         end).

(** The argument of [sendResponse]. *)
Record Reply := mkReply {
  success : bool;
  dataUrl : option string;
  error : option string
}.

(** The listener: what it passes to [sendResponse], if anything. *)
Definition onMessage (tabs : Tabs) (message_type : string) : option Reply :=
  if String.eqb message_type "CAPTURE_SCREENSHOT" then
    match captureScreenshot tabs with
    | Ok dataUrl => Some (mkReply true (Some dataUrl) None)
    | Throw error => Some (mkReply false None (Some (message error)))
    end
  else None.

End Background.

(** ** popup.tsx: the popup *)

Module Popup.

(** [while (n--) { u8arr[n] = bstr.charCodeAt(n) }]: the test reads
    [n] and then decrements it, so the body runs with [n - 1]. *)
Fixpoint dataURLtoBlob_loop (bstr : string) (n : nat) (u8arr : list Z) : list Z :=
  match n with
  | O => u8arr
  | S m => dataURLtoBlob_loop bstr m (<[m := to_uint8 (charCodeAt bstr m)]> u8arr)
  end.

Definition dataURLtoBlob (dataUrl : string) : result Blob :=
  let arr := split "," dataUrl in
  match arr !! 0%nat with
  | None => Throw (mkError "TypeError" "Cannot read properties of undefined (reading 'match')")
  | Some arr0 =>
      let mime := or_else (match_mime arr0) "image/png" in
      bind (atob_arg (arr !! 1%nat)) (fun bstr =>
        let n := String.length bstr in
        let u8arr := replicate n 0 in
        Ok (mkBlob (dataURLtoBlob_loop bstr n u8arr) mime))
  end.

(** *** The state of the component

    The [useStorage] and [useState] values the two handlers below
    read or set. *)

Record BacklogProject := mkProject {
  id : Z;
  projectKey : string;
  project_name : string;
  archived : bool
}.

Record State := mkState {
  space : option string;
  title : string;
  description : string;
  selectedProjectId : string;
  selectedIssueTypeId : string;
  selectedPriorityId : string;
  selectedAssigneeId : string;
  projects : list BacklogProject;
  errorMessage : string;
  screenshotDataUrl : option string;
  capturingScreenshot : bool
}.

Definition setScreenshotDataUrl (st : State) (v : option string) : State :=
  mkState (space st) (title st) (description st) (selectedProjectId st)
          (selectedIssueTypeId st) (selectedPriorityId st) (selectedAssigneeId st)
          (projects st) (errorMessage st) v (capturingScreenshot st).
Definition setErrorMessage (st : State) (v : string) : State :=
  mkState (space st) (title st) (description st) (selectedProjectId st)
          (selectedIssueTypeId st) (selectedPriorityId st) (selectedAssigneeId st)
          (projects st) v (screenshotDataUrl st) (capturingScreenshot st).
Definition setCapturingScreenshot (st : State) (v : bool) : State :=
  mkState (space st) (title st) (description st) (selectedProjectId st)
          (selectedIssueTypeId st) (selectedPriorityId st) (selectedAssigneeId st)
          (projects st) (errorMessage st) (screenshotDataUrl st) v.

(** *** Screenshot capture *)

Definition capture_failed : string := "スクリーンショットの撮影に失敗しました".

(** The [try] block. [sent] is what [chrome.runtime.sendMessage]
    settles to: a rejection, no reply ([undefined]) or a reply. *)
Definition handleCaptureScreenshot_try
           (sent : result (option Background.Reply)) (st : State) : result State :=
  bind sent (fun response =>
    match response with
    | None =>
        Throw (mkError "TypeError" "Cannot read properties of undefined (reading 'success')")
    | Some r =>
        if Background.success r then Ok (setScreenshotDataUrl st (Background.dataUrl r))
        else Ok (setErrorMessage st (or_else (Background.error r) capture_failed))
    end).

Definition handleCaptureScreenshot
           (sent : result (option Background.Reply)) (st : State) : result State :=
  let st := setCapturingScreenshot st true in
  let caught :=
    match handleCaptureScreenshot_try sent st with
    | Ok st' => Ok st'
    | Throw error => Ok (setErrorMessage st (message error))
    end in
  match caught with
  | Ok st' => Ok (setCapturingScreenshot st' false)
  | Throw error => Throw error
  end.

(** The popup's request answered by the background listener. *)
Definition capture (tabs : Background.Tabs) (st : State) : result State :=
  handleCaptureScreenshot (Ok (Background.onMessage tabs "CAPTURE_SCREENSHOT")) st.

(** *** Handing the form to Backlog's own page *)

(** What the popup leaves behind: [chrome.storage.local] and the
    tabs it opened. *)
Record Extension := mkExtension {
  local : gmap string Handoff.FormData;
  opened_tabs : list string
}.

Definition find_selected (f : State) : option BacklogProject :=
  List.find (fun p => String.eqb (pretty (id p)) (selectedProjectId f)) (projects f).

(** [value || null] for a value that is a string or [null]. *)
Definition option_or_null (v : option string) : option string :=
  if truthy v then v else None.

(** [now] is the value of [Date.now()] in the object literal. *)
Definition openBacklogIssuePage (now : Z) (f : State) (x : Extension) : Extension :=
  match find_selected f with
  | None => x
  | Some selectedProject =>
      if negb (truthy (space f)) then x
      else
        let record :=
          Handoff.mkFormData
            (or_null (trim (title f)))
            (or_null (trim (description f)))
            (or_null (selectedIssueTypeId f))
            (or_null (selectedPriorityId f))
            (or_null (selectedAssigneeId f))
            (option_or_null (screenshotDataUrl f))
            (Some now) in
        let url := "https://" +:+ default "" (space f) +:+ "/add/" +:+ projectKey selectedProject in
        mkExtension (<[Handoff.key := record]> (local x)) (opened_tabs x ++ [url])
  end.

End Popup.

(** ** The second copy of the popup (src/unnamed/part_001)

    It shares [dataURLtoBlob], [handleCaptureScreenshot] and the state
    with popup.tsx; its [openBacklogIssuePage] differs. *)

Module PopupCopy.

Import Popup.

Definition openBacklogIssuePage (f : State) (x : Extension) : Extension :=
  match find_selected f with
  | None => x
  | Some selectedProject =>
      if negb (truthy (space f)) then x
      else
        let record :=
          Handoff.mkFormData
            (or_null (trim (title f)))
            (or_null (trim (description f)))
            (or_null (selectedIssueTypeId f))
            (or_null (selectedPriorityId f))
            (or_null (selectedAssigneeId f))
            (option_or_null (screenshotDataUrl f))
            None in
        let url := "https://" +:+ default "" (space f) +:+ "/add/" +:+ projectKey selectedProject in
        mkExtension (<[Handoff.key := record]> (local x)) (opened_tabs x ++ [url])
  end.

End PopupCopy.

(** ** contents/backlog-form-filler.ts: the content script *)

Module ContentScript.

(** The script's own copy of the decoder. *)
Fixpoint dataURLtoBlob_loop (bstr : string) (n : nat) (u8arr : list Z) : list Z :=
  match n with
  | O => u8arr
  | S m => dataURLtoBlob_loop bstr m (<[m := to_uint8 (charCodeAt bstr m)]> u8arr)
  end.

Definition dataURLtoBlob (dataUrl : string) : result Blob :=
  let arr := split "," dataUrl in
  match arr !! 0%nat with
  | None => Throw (mkError "TypeError" "Cannot read properties of undefined (reading 'match')")
  | Some arr0 =>
      let mime := or_else (match_mime arr0) "image/png" in
      bind (atob_arg (arr !! 1%nat)) (fun bstr =>
        let n := String.length bstr in
        let u8arr := replicate n 0 in
        Ok (mkBlob (dataURLtoBlob_loop bstr n u8arr) mime))
  end.

(** *** The page and what the script does to it

    The page belongs to Backlog. The script sees it through a few
    DOM calls; what they answer may depend on everything done to the
    page before, so each answer is a function of the trace so far. *)

(** An element of the page, as a handle. *)
Definition Elem := nat.

Record File := mkFile { file_name : string; file_type : string; file_bytes : list Z }.

(** An element made by [document.createElement]. *)
Record Created := mkCreated { tag : string; textContent : string; cssText : string }.

Inductive Event :=
| Wait (ms : Z)                             (* await of a [setTimeout] promise *)
| NativeSetValue (el : Elem) (value : string)   (* [nativeSetter.call(element, value)] *)
| DispatchEvent (el : Elem) (type : string)
| SetInnerHTML (el : Elem) (html : string)
| Focus (el : Elem)
| SelectEnd (el : Elem)                     (* the range collapsed at the end of [el] *)
| DispatchPaste (el : Elem) (file : File)
| Click (el : Elem)
| AppendToHead (node : Created)
| AppendToBody (node : Created)
| SetTimeout (ms : Z).                      (* the callback that removes the notification *)

Record Browser := mkBrowser {
  (** [Date.now()] at the age check *)
  now : Z;
  (** [chrome.runtime?.id]; reading it may throw *)
  runtime_id : result (option string);
  (** [document.querySelector(selector)]; an invalid selector throws *)
  querySelector : list Event -> string -> result (option Elem);
  (** [root.querySelector(selector)] *)
  querySelectorIn : list Event -> Elem -> string -> result (option Elem);
  (** [el.getAttribute(name)] *)
  getAttribute : list Event -> Elem -> string -> option string;
  (** [el instanceof HTMLTextAreaElement] *)
  isTextArea : Elem -> bool;
  (** whether the prototype (of textareas, or of inputs) has a
      [value] setter *)
  hasValueSetter : bool -> bool;
  (** [window.getSelection()] is not [null] *)
  hasSelection : list Event -> bool;
  (** a DOM call that throws instead of taking effect *)
  refuses : list Event -> Event -> option Error
}.

(** The state the script changes: the extension's local storage, the
    keys given to [chrome.storage.local.remove], and the trace of
    what was done to the page. *)
Record World := mkWorld {
  local : gmap string Handoff.FormData;
  removed : list string;
  trace : list Event
}.

(** *** A state and error monad for the [async] functions *)

Definition M (A : Type) : Type := World -> result A * World.

Definition ret {A} (a : A) : M A := fun w => (Ok a, w).

Definition bindM {A B} (m : M A) (k : A -> M B) : M B :=
  fun w =>
    match m w with
    | (Ok a, w') => k a w'
    | (Throw e, w') => (Throw e, w')
    end.

Definition lift {A} (r : result A) : M A := fun w => (r, w).

Notation "x <- m ;; k" := (bindM m (fun x => k))
  (at level 100, m at next level, right associativity).
Notation "m ;;; k" := (bindM m (fun _ => k))
  (at level 100, right associativity).

Definition when (b : bool) (m : M unit) : M unit := if b then m else ret tt.

Section Script.

Variable browser : Browser.

Definition perform (e : Event) : M unit :=
  fun w =>
    match refuses browser (trace w) e with
    | Some err => (Throw err, w)
    | None => (Ok tt, mkWorld (local w) (removed w) (trace w ++ [e]))
    end.

Definition wait (ms : Z) : M unit :=
  fun w => (Ok tt, mkWorld (local w) (removed w) (trace w ++ [Wait ms])).

(** [setTimeout(callback, ms)] only registers the callback. *)
Definition setTimeout (ms : Z) : M unit :=
  fun w => (Ok tt, mkWorld (local w) (removed w) (trace w ++ [SetTimeout ms])).

Definition document_querySelector (selector : string) : M (option Elem) :=
  fun w => (querySelector browser (trace w) selector, w).

Definition element_querySelector (root : Elem) (selector : string) : M (option Elem) :=
  fun w => (querySelectorIn browser (trace w) root selector, w).

Definition element_getAttribute (el : Elem) (name : string) : M (option string) :=
  fun w => (Ok (getAttribute browser (trace w) el name), w).

Definition window_getSelection : M bool :=
  fun w => (Ok (hasSelection browser (trace w)), w).

Definition storage_get (k : string) : M (option Handoff.FormData) :=
  fun w => (Ok (local w !! k), w).

Definition storage_remove (k : string) : M unit :=
  fun w => (Ok tt, mkWorld (delete k (local w)) (removed w ++ [k]) (trace w)).

Definition setReactInputValue (element : Elem) (value : string) : M unit :=
  when (hasValueSetter browser (isTextArea browser element))
       (perform (NativeSetValue element value)) ;;;
  perform (DispatchEvent element "input") ;;;
  perform (DispatchEvent element "change").

Definition pasteImageToEditor (editor : Elem) (dataUrl : string) : M unit :=
  blob <- lift (dataURLtoBlob dataUrl) ;;
  let file := mkFile "screenshot.png" (blob_type blob) (blob_bytes blob) in
  perform (Focus editor) ;;;
  selection <- window_getSelection ;;
  when selection (perform (SelectEnd editor)) ;;;
  perform (DispatchPaste editor file).

Definition dq : string := String "034"%char EmptyString.

Definition selectComboboxOption (labelId optionId : string) : M bool :=
  combobox <- document_querySelector
    ("button[role=" +:+ dq +:+ "combobox" +:+ dq +:+ "][aria-labelledby="
       +:+ dq +:+ labelId +:+ dq +:+ "]") ;;
  match combobox with
  | None => ret false
  | Some combobox =>
      perform (Click combobox) ;;;
      wait 300 ;;;
      listboxId <- element_getAttribute combobox "aria-controls" ;;
      if negb (truthy listboxId) then ret false
      else
        let listboxId := default "" listboxId in
        listbox <- document_querySelector
          ("#" +:+ listboxId +:+ ", [id=" +:+ dq +:+ listboxId +:+ dq +:+ "]") ;;
        match listbox with
        | None => perform (Click combobox) ;;; ret false
        | Some listbox =>
            targetOption <- element_querySelector listbox
              ("#" +:+ listboxId +:+ "-" +:+ optionId) ;;
            match targetOption with
            | Some targetOption =>
                perform (Click targetOption) ;;;
                wait 200 ;;;
                ret true
            | None => perform (Click combobox) ;;; ret false
            end
        end
  end.

Definition MAX_AGE_MS : Z := 5000.

(** [Date.now() - formData.timestamp > MAX_AGE_MS]; without a
    [timestamp] the difference is NaN and the comparison false. *)
Definition too_old (formData : Handoff.FormData) : bool :=
  match Handoff.timestamp formData with
  | Some t => now browser - t >? MAX_AGE_MS
  | None => false
  end.

(** [description.split('\n').map(...).join('')]. *)
Definition description_html (description : string) : string :=
  let lines := split "010"%char description in
  join "" (map (fun line => "<p>" +:+ or_else (Some line) "<br>" +:+ "</p>") lines).

Definition notification : Created :=
  mkCreated "div" "Backlog Quick: フォームに値を自動入力しました" "
    position: fixed;
    top: 20px;
    right: 20px;
    background: #42CE9F;
    color: white;
    padding: 12px 24px;
    border-radius: 8px;
    font-size: 14px;
    font-weight: 500;
    z-index: 10000;
    box-shadow: 0 4px 12px rgba(0, 0, 0, 0.15);
    animation: slideIn 0.3s ease-out;
  ".

Definition style : Created :=
  mkCreated "style" "
    @keyframes slideIn {
      from { transform: translateX(100%); opacity: 0; }
      to { transform: translateX(0); opacity: 1; }
    }
  " "".

(** The part of [fillForm] after the two early returns on the
    record's age and content. *)
Definition fill (formData : Handoff.FormData) : M unit :=
  let summary := Handoff.summary formData in
  let description := Handoff.description formData in
  let issueTypeId := Handoff.issueTypeId formData in
  let priorityId := Handoff.priorityId formData in
  let assigneeId := Handoff.assigneeId formData in
  let screenshotDataUrl := Handoff.screenshotDataUrl formData in
  wait 2000 ;;;
  when (truthy summary)
    (summaryInput <- document_querySelector
       ("#summaryInput, input[name=" +:+ dq +:+ "issue.summary" +:+ dq +:+ "]") ;;
     match summaryInput with
     | Some summaryInput => setReactInputValue summaryInput (default "" summary)
     | None => ret tt
     end) ;;;
  descEditor <- document_querySelector
    ("#descriptionTextArea, .comment-editor__textarea[contenteditable="
       +:+ dq +:+ "true" +:+ dq +:+ "]") ;;
  match descEditor with
  | Some descEditor =>
      when (truthy description)
        (perform (SetInnerHTML descEditor (description_html (default "" description))) ;;;
         perform (DispatchEvent descEditor "input")) ;;;
      when (truthy screenshotDataUrl)
        (wait 500 ;;;
         pasteImageToEditor descEditor (default "" screenshotDataUrl))
  | None => ret tt
  end ;;;
  when (truthy issueTypeId)
    (_ <- selectComboboxOption "issueTypeLabel" (default "" issueTypeId) ;; ret tt) ;;;
  when (truthy priorityId)
    (_ <- selectComboboxOption "priorityLabel" (default "" priorityId) ;; ret tt) ;;;
  when (truthy assigneeId)
    (_ <- selectComboboxOption "assignerLabel" (default "" assigneeId) ;; ret tt) ;;;
  perform (AppendToHead style) ;;;
  perform (AppendToBody notification) ;;;
  setTimeout 3000.

Definition nothing_to_fill (formData : Handoff.FormData) : bool :=
  negb (truthy (Handoff.summary formData))
  && negb (truthy (Handoff.description formData))
  && negb (truthy (Handoff.issueTypeId formData))
  && negb (truthy (Handoff.priorityId formData))
  && negb (truthy (Handoff.assigneeId formData))
  && negb (truthy (Handoff.screenshotDataUrl formData)).

Definition fillForm : M unit :=
  formData <- storage_get Handoff.key ;;
  match formData with
  | None => ret tt
  | Some formData =>
      storage_remove Handoff.key ;;;
      if too_old formData then ret tt
      else if nothing_to_fill formData then ret tt
      else fill formData
  end.

Definition isExtensionContextValid : bool :=
  match runtime_id browser with
  | Ok id => truthy id
  | Throw _ => false
  end.

(** The statement at the end of the script:
    [if (isExtensionContextValid()) { fillForm().catch(() => {}) }]. *)
Definition run : M unit :=
  fun w =>
    if isExtensionContextValid then
      match fillForm w with
      | (Ok _, w') => (Ok tt, w')
      | (Throw _, w') => (Ok tt, w')
      end
    else (Ok tt, w).

End Script.

End ContentScript.

(** ** What a step of the content script may change

    [emits P m]: running [m] leaves the storage and the list of removed
    keys as they were and extends the trace by events that satisfy [P].
    [throws_silently m]: when [m] throws, the trace has grown by events
    other than the notification. *)

Module Effects.

Import ContentScript.

Definition emits {A} (P : Event -> Prop) (m : M A) : Prop :=
  forall w,
    local (m w).2 = local w
    /\ removed (m w).2 = removed w
    /\ exists evs, trace (m w).2 = (trace w ++ evs)%list /\ Forall P evs.

Definition any_event (e : Event) : Prop := True.

Definition not_notification (e : Event) : Prop :=
  match e with
  | AppendToBody _ => False
  | _ => True
  end.

Definition throws_silently {A} (m : M A) : Prop :=
  forall w e,
    (m w).1 = Throw e ->
    local (m w).2 = local w
    /\ removed (m w).2 = removed w
    /\ exists evs, trace (m w).2 = (trace w ++ evs)%list /\ Forall not_notification evs.

End Effects.

(** ** Concrete inputs used by the examples below *)

Module Samples.

(** A host name made of a single line feed. *)
Definition line_feed_space : string := String "010"%char EmptyString.

(** A URL parser that keeps the text and finds no query. *)
Definition plain_URL (text : string) : result BacklogApi.URL :=
  Ok (BacklogApi.mkURL text []).

Definition client : BacklogApi.BacklogAPIClient :=
  BacklogApi.mkClient "https://example.backlog.com/api/v2" "secret" 30000.

(** One active tab whose capture fails with an empty message. *)
Definition silent_failure : Background.Tabs :=
  Background.mkTabs (Ok [Background.mkTab (Some 7) 1])
                    (fun _ => Throw (mkError "Error" "")).

Definition popup_state : Popup.State :=
  Popup.mkState (Some "example.backlog.com") "Broken link" "URL: https://example.com"
                "12" "3" "" "" [Popup.mkProject 12 "WEB" "Web site" false]
                "" None false.

Definition empty_extension : Popup.Extension := Popup.mkExtension ∅ [].

(** The record the second copy of the popup stores for [popup_state]. *)
Definition record_without_timestamp : Handoff.FormData :=
  Handoff.mkFormData (Some "Broken link") (Some "URL: https://example.com")
                     (Some "3") None None None None.

(** A page with every element the script looks for; no DOM call
    throws. The clock reads [now]. *)
Definition page (now : Z) : ContentScript.Browser :=
  ContentScript.mkBrowser now (Ok (Some "extension-id"))
    (fun _ selector => Ok (Some (String.length selector)))
    (fun _ _ selector => Ok (Some (String.length selector)))
    (fun _ _ _ => Some "listbox")
    (fun _ => false) (fun _ => true) (fun _ => true)
    (fun _ _ => None).

(** A record staged at time 1000. *)
Definition staged : Handoff.FormData :=
  Handoff.mkFormData (Some "Broken link") None (Some "3") None None None (Some 1000).

Definition blank : Handoff.FormData :=
  Handoff.mkFormData None None None None None None (Some 1000).

Definition world (fd : Handoff.FormData) : ContentScript.World :=
  ContentScript.mkWorld {[ Handoff.key := fd ]} [] [].

End Samples.

(** ** Base64 as the data URLs of the browser carry it

    The reference encoder (RFC 4648, with padding) that the decoder of
    the extension is compared with. Bytes are numbers below 256. *)

Module Base64.

Definition b64_char (v : Z) : ascii :=
  if v <? 26 then ascii_of_N (Z.to_N (v + 65))
  else if v <? 52 then ascii_of_N (Z.to_N (v - 26 + 97))
  else if v <? 62 then ascii_of_N (Z.to_N (v - 52 + 48))
  else if v =? 62 then "+"%char
  else "/"%char.

Fixpoint encode (bytes : list Z) : list ascii :=
  match bytes with
  | a :: b :: c :: rest =>
      b64_char (a / 4) :: b64_char ((a mod 4) * 16 + b / 16)
        :: b64_char ((b mod 16) * 4 + c / 64) :: b64_char (c mod 64) :: encode rest
  | [a; b] =>
      [b64_char (a / 4); b64_char ((a mod 4) * 16 + b / 16);
       b64_char ((b mod 16) * 4); "="%char]
  | [a] => [b64_char (a / 4); b64_char ((a mod 4) * 16); "="%char; "="%char]
  | [] => []
  end.

(** The encoding without its padding. *)
Fixpoint encode_unpadded (bytes : list Z) : list ascii :=
  match bytes with
  | a :: b :: c :: rest =>
      b64_char (a / 4) :: b64_char ((a mod 4) * 16 + b / 16)
        :: b64_char ((b mod 16) * 4 + c / 64) :: b64_char (c mod 64) :: encode_unpadded rest
  | [a; b] =>
      [b64_char (a / 4); b64_char ((a mod 4) * 16 + b / 16); b64_char ((b mod 16) * 4)]
  | [a] => [b64_char (a / 4); b64_char ((a mod 4) * 16)]
  | [] => []
  end.

Definition is_byte (b : Z) : Prop := 0 <= b < 256.


Fixpoint has_char (c : ascii) (s : string) : bool :=
  match s with
  | EmptyString => false
  | String d s' => Ascii.eqb d c || has_char c s'
  end.

(** What the proofs need of one character of the alphabet. *)
Definition b64_char_ok (v : Z) : bool :=
  match b64_value (b64_char v) with
  | Some v' => v' =? v
  | None => false
  end
  && negb (is_ascii_whitespace (b64_char v))
  && negb (Ascii.eqb (b64_char v) "="%char)
  && negb (Ascii.eqb (b64_char v) ","%char).

End Base64.

(** ** More built-ins *)

Module JsText.

(** [s.includes(t)]. *)
Fixpoint includes (s t : string) : bool :=
  starts_with t s
  || match s with
     | EmptyString => false
     | String _ s' => includes s' t
     end.

(** [toLowerCase] of one code unit below 256: the letters A to Z and
    the capital letters of Latin-1 (U+00C0 to U+00DE without U+00D7). *)
Definition lower_char (c : ascii) : ascii :=
  let n := Z.of_N (N_of_ascii c) in
  if ((65 <=? n) && (n <=? 90))
     || ((192 <=? n) && (n <=? 222) && negb (n =? 215))
  then ascii_of_N (Z.to_N (n + 32))
  else c.

Fixpoint toLowerCase (s : string) : string :=
  match s with
  | EmptyString => EmptyString
  | String c s' => String (lower_char c) (toLowerCase s')
  end.

(** [s.replace(/[:.]/g, "-")]. *)
Fixpoint replace_colon_dot (s : string) : string :=
  match s with
  | EmptyString => EmptyString
  | String c s' =>
      String (if Ascii.eqb c ":"%char || Ascii.eqb c "."%char then "-"%char else c)
             (replace_colon_dot s')
  end.

(** A text that [trim] empties: white space only. *)
Definition blank (s : string) : bool := forallb is_trim_space (list_ascii_of_string s).

End JsText.

(** ** types/index.ts: the records of the API that the code reads *)

Module Types.

Record BacklogIssueType := mkIssueType {
  issueType_id : Z;
  issueType_projectId : Z;
  issueType_name : string
}.

Record BacklogPriority := mkPriority { priority_id : Z; priority_name : string }.

Record BacklogUser := mkUser { user_id : Z; userId : string; user_name : string }.

Record BacklogIssue := mkIssue { issue_id : Z; issueKey : string; issue_summary : string }.

Record BacklogAttachment := mkAttachment {
  attachment_id : Z;
  attachment_name : string;
  attachment_size : Z
}.

End Types.

(** ** lib/backlog-api.ts: the requests of the client *)

Module RestClient.

(** The body of a request: the text of a form, or a [FormData] with
    one file. *)
Inductive Body :=
| TextBody (text : string)
| FileBody (field : string) (filename : string) (type : string) (bytes : list Z).

Record RequestInit := mkInit {
  method : option string;
  headers : list (string * string);
  body : option Body
}.

Definition no_init : RequestInit := mkInit None [] None.

(** A response: what [handleErrorResponse] reads of it, and what
    [response.json()] settles to when it is read as the result. *)
Record Reply (T : Type) := mkReply {
  head : BacklogApi.Response;
  data : result T
}.
Arguments mkReply {T} head data.
Arguments head {T} r.
Arguments data {T} r.

(** [fetch(url, init)] under an abort timer of [timeout] ms: a
    response, or a rejection; the rejection of an aborted request is
    named [AbortError]. *)
Definition Fetch (T : Type) : Type := string -> RequestInit -> Z -> result (Reply T).

(** A request that reached [fetch]. *)
Definition Call : Type := string * RequestInit.

(** A value of a field of [CreateIssueParams]. *)
Inductive Field :=
| Undefined
| Scalar (v : BacklogApi.ParamValue)
| Array (vs : list BacklogApi.ParamValue).

(** The [forEach] of [createIssue] over [Object.entries(params)]:
    the entries appended to the [URLSearchParams]. *)
Fixpoint form_entries (params : list (string * Field)) : list (string * string) :=
  match params with
  | [] => []
  | (key, Undefined) :: rest => form_entries rest
  | (key, Array vs) :: rest =>
      (map (fun v => (key +:+ "[]", BacklogApi.String_of v)) vs ++ form_entries rest)%list
  | (key, Scalar v) :: rest => (key, BacklogApi.String_of v) :: form_entries rest
  end.

Section Client.

(** The browser: [new URL], [url.toString()] and the text of a
    [URLSearchParams]. *)
Variable new_URL : string -> result BacklogApi.URL.
Variable URL_toString : BacklogApi.URL -> string.
Variable URLSearchParams_toString : list (string * string) -> string.

Definition fetchWithTimeout {T} (fetch : Fetch T) (url : string) (options : RequestInit)
           (timeout : Z) : result (Reply T) :=
  match fetch url options timeout with
  | Ok response => Ok response
  | Throw error =>
      if String.eqb (name error) "AbortError" then
        Throw (mkError "Error" "Request timeout")
      else
        Throw (mkError (name error) (message error +:+ " (URL: " +:+ url +:+ ")"))
  end.

Definition connection_failed (c : BacklogApi.BacklogAPIClient) (original : string) : string :=
  "Failed to connect to " +:+ BacklogApi.baseURL c +:+ ". Please check:
- Your internet connection
- The Backlog space URL is correct (e.g., yourspace.backlog.com)

Original error: " +:+ original.

(** The [catch] of [request]; what is thrown inside the [try] block
    is always an [Error] object here. *)
Definition request_catch {T} (c : BacklogApi.BacklogAPIClient) (r : result T) : result T :=
  match r with
  | Ok v => Ok v
  | Throw error =>
      if JsText.includes (message error) "fetch failed"
         || JsText.includes (message error) "Failed to fetch"
      then Throw (mkError "Error" (connection_failed c (message error)))
      else Throw error
  end.

(** What follows the fetch in [request] and in
    [uploadAttachmentFromBlob]: a response that is not OK throws, an
    OK one gives its JSON. *)
Definition read_response {T} (response : Reply T) : result T :=
  if negb (BacklogApi.ok (head response)) then
    bind (BacklogApi.handleErrorResponse (head response)) (fun _ => data response)
  else data response.

(** The options [request] passes on: [{ ...fetchOptions, headers: {
    ...fetchOptions.headers } }]. *)
Definition sent (fetchOptions : RequestInit) : RequestInit :=
  mkInit (method fetchOptions) (headers fetchOptions) (body fetchOptions).

(** [request]: its result and the requests that reached [fetch].
    [timeout] is [None] when the caller gives none. *)
Definition request {T} (fetch : Fetch T) (c : BacklogApi.BacklogAPIClient)
           (endpoint : string) (params : list (string * option BacklogApi.ParamValue))
           (timeout : option Z) (fetchOptions : RequestInit) : result T * list Call :=
  match BacklogApi.request_url new_URL c endpoint params with
  | Throw error => (Throw error, [])
  | Ok url =>
      let text := URL_toString url in
      let init := sent fetchOptions in
      (request_catch c
         (bind (fetchWithTimeout fetch text init (default (BacklogApi.defaultTimeout c) timeout))
               read_response),
       [(text, init)])
  end.

Definition getProjects (fetch : Fetch (list Popup.BacklogProject)) c :=
  request fetch c "/projects" [] None no_init.

Definition getIssueTypes (fetch : Fetch (list Types.BacklogIssueType)) c (projectIdOrKey : string) :=
  request fetch c ("/projects/" +:+ projectIdOrKey +:+ "/issueTypes") [] None no_init.

Definition getPriorities (fetch : Fetch (list Types.BacklogPriority)) c :=
  request fetch c "/priorities" [] None no_init.

Definition getUsers (fetch : Fetch (list Types.BacklogUser)) c (projectIdOrKey : string) :=
  request fetch c ("/projects/" +:+ projectIdOrKey +:+ "/users") [] None no_init.

Definition getMyself (fetch : Fetch Types.BacklogUser) c :=
  request fetch c "/users/myself" [] None no_init.

Definition createIssue (fetch : Fetch Types.BacklogIssue) c (params : list (string * Field)) :=
  let formData := form_entries params in
  request fetch c "/issues" [] None
          (mkInit (Some "POST")
                  [("Content-Type", "application/x-www-form-urlencoded")]
                  (Some (TextBody (URLSearchParams_toString formData)))).

Definition uploadAttachmentFromBlob (fetch : Fetch Types.BacklogAttachment)
           (c : BacklogApi.BacklogAPIClient) (blob : Blob) (filename : string)
  : result Types.BacklogAttachment * list Call :=
  let type := or_else (Some (blob_type blob)) "image/png" in
  match BacklogApi.upload_url new_URL c with
  | Throw error => (Throw error, [])
  | Ok url =>
      let text := URL_toString url in
      let init := mkInit (Some "POST") [] (Some (FileBody "file" filename type (blob_bytes blob))) in
      (bind (fetchWithTimeout fetch text init (BacklogApi.defaultTimeout c)) read_response,
       [(text, init)])
  end.

Definition testConnection (fetch : Fetch Types.BacklogUser) c : result bool * list Call :=
  match getMyself fetch c with
  | (Ok _, calls) => (Ok true, calls)
  | (Throw error, calls) => (Throw error, calls)
  end.

End Client.

End RestClient.

(** ** popup.tsx: the filters and the handlers that call the API *)

Module PopupHandlers.

Import Popup.

Definition filteredProjects (projects : list BacklogProject) (projectQuery : string)
  : list BacklogProject :=
  if String.eqb projectQuery "" then projects
  else
    let query := JsText.toLowerCase projectQuery in
    List.filter
      (fun project =>
         JsText.includes (JsText.toLowerCase (project_name project)) query
         || JsText.includes (JsText.toLowerCase (projectKey project)) query)
      projects.

Definition filteredIssueTypes (issueTypes : list Types.BacklogIssueType) (issueTypeQuery : string)
  : list Types.BacklogIssueType :=
  if String.eqb issueTypeQuery "" then issueTypes
  else
    let query := JsText.toLowerCase issueTypeQuery in
    List.filter
      (fun type => JsText.includes (JsText.toLowerCase (Types.issueType_name type)) query)
      issueTypes.

Definition filteredUsers (users : list Types.BacklogUser) (assigneeQuery : string)
  : list Types.BacklogUser :=
  if String.eqb assigneeQuery "" then users
  else
    let query := JsText.toLowerCase assigneeQuery in
    List.filter
      (fun user => JsText.includes (JsText.toLowerCase (Types.user_name user)) query)
      users.

Inductive SubmitStatus := idle | submitting | success | error.

(** The state [handleSubmit] reads and sets beyond [Popup.State]. *)
Record Submit := mkSubmit {
  form : State;
  apiKey : option string;
  submitStatus : SubmitStatus;
  createdIssueUrl : string
}.



(** [value || undefined] as a field of the parameters. *)
Definition or_undefined (v : string) : RestClient.Field :=
  match or_null v with
  | Some s => RestClient.Scalar (BacklogApi.PString s)
  | None => RestClient.Undefined
  end.

(** The object literal [params] of [handleSubmit]. *)
Definition issue_params (f : State) (attachmentId : option (list string))
  : list (string * RestClient.Field) :=
  [ ("projectId", RestClient.Scalar (BacklogApi.PString (selectedProjectId f)));
    ("summary", RestClient.Scalar (BacklogApi.PString (trim (title f))));
    ("issueTypeId", RestClient.Scalar (BacklogApi.PString (selectedIssueTypeId f)));
    ("priorityId", RestClient.Scalar (BacklogApi.PString (selectedPriorityId f)));
    ("description", or_undefined (trim (description f)));
    ("assigneeId", or_undefined (selectedAssigneeId f));
    ("attachmentId",
      match attachmentId with
      | Some ids => RestClient.Array (map BacklogApi.PString ids)
      | None => RestClient.Undefined
      end) ].

Definition required_missing (f : State) : bool :=
  negb (truthy (Some (trim (title f))))
  || negb (truthy (Some (selectedProjectId f)))
  || negb (truthy (Some (selectedIssueTypeId f)))
  || negb (truthy (Some (selectedPriorityId f))).

Section Handlers.

Variable new_URL : string -> result BacklogApi.URL.
Variable URL_toString : BacklogApi.URL -> string.
Variable URLSearchParams_toString : list (string * string) -> string.

(** The server, one [fetch] per type of result. *)
Variable fetch_attachment : RestClient.Fetch Types.BacklogAttachment.
Variable fetch_issue : RestClient.Fetch Types.BacklogIssue.
Variable fetch_issueTypes : RestClient.Fetch (list Types.BacklogIssueType).
Variable fetch_users : RestClient.Fetch (list Types.BacklogUser).

(** [new BacklogAPIClient(space, apiKey)] with values of [useStorage]:
    [undefined] fails the constructor's test as the empty string does. *)
Definition new_client (space apiKey : option string) : result BacklogApi.BacklogAPIClient :=
  BacklogApi.constructor (default "" space) (default "" apiKey).

(** The upload of the screenshot, when there is one: the value of
    [attachmentId]. [iso] is [new Date().toISOString()]. *)
Definition upload_screenshot (iso : string) (client : BacklogApi.BacklogAPIClient) (f : State)
  : result (option (list string)) * list RestClient.Call :=
  if truthy (screenshotDataUrl f) then
    match dataURLtoBlob (default "" (screenshotDataUrl f)) with
    | Throw e => (Throw e, [])
    | Ok blob =>
        let timestamp := JsText.replace_colon_dot iso in
        match RestClient.uploadAttachmentFromBlob new_URL URL_toString fetch_attachment
                client blob ("screenshot-" +:+ timestamp +:+ ".png") with
        | (Ok attachment, calls) => (Ok (Some [pretty (Types.attachment_id attachment)]), calls)
        | (Throw e, calls) => (Throw e, calls)
        end
    end
  else (Ok None, []).

(** The [try] block of [handleSubmit]: the URL of the issue. *)
Definition handleSubmit_try (iso : string) (s : Submit) : result string * list RestClient.Call :=
  match new_client (space (form s)) (apiKey s) with
  | Throw e => (Throw e, [])
  | Ok client =>
      match upload_screenshot iso client (form s) with
      | (Throw e, calls) => (Throw e, calls)
      | (Ok attachmentId, calls) =>
          match RestClient.createIssue new_URL URL_toString URLSearchParams_toString
                  fetch_issue client (issue_params (form s) attachmentId) with
          | (Ok issue, calls') =>
              (Ok (BacklogApi.getIssueUrl client (Types.issueKey issue)), (calls ++ calls')%list)
          | (Throw e, calls') => (Throw e, (calls ++ calls')%list)
          end
      end
  end.

Definition required_message : string := "必須項目を入力してください".

Definition handleSubmit (iso : string) (s : Submit) : Submit * list RestClient.Call :=
  if required_missing (form s) then
    (mkSubmit (setErrorMessage (form s) required_message) (apiKey s)
              (submitStatus s) (createdIssueUrl s), [])
  else
    let s1 := mkSubmit (setErrorMessage (form s) "") (apiKey s) submitting (createdIssueUrl s) in
    match handleSubmit_try iso s1 with
    | (Ok issueUrl, calls) => (mkSubmit (form s1) (apiKey s1) success issueUrl, calls)
    | (Throw e, calls) =>
        (mkSubmit (setErrorMessage (form s1) (message e)) (apiKey s1) error (createdIssueUrl s1),
         calls)
    end.



End Handlers.

End PopupHandlers.

(** ** options.tsx: the connection test of the settings page *)

Module Options.

Inductive TestStatus := idle | testing | success | error.

Record Settings := mkSettings {
  localApiKey : string;
  localSpace : string;
  testStatus : TestStatus;
  testMessage : string;
  projects : list Popup.BacklogProject;
  priorities : list Types.BacklogPriority
}.

Definition missing_message : string := "APIキーとスペースを入力してください".
Definition connected_message : string := "接続成功".

Section Handlers.

Variable new_URL : string -> result BacklogApi.URL.
Variable URL_toString : BacklogApi.URL -> string.
Variable fetch_myself : RestClient.Fetch Types.BacklogUser.
Variable fetch_projects : RestClient.Fetch (list Popup.BacklogProject).
Variable fetch_priorities : RestClient.Fetch (list Types.BacklogPriority).

(** The state after the [catch]: the status and message of the
    failure on top of what the [try] block had set. *)
Definition failed (st : Settings) (e : Error) : Settings :=
  mkSettings (localApiKey st) (localSpace st) error (message e) (projects st) (priorities st).

(** [handleTestConnection]: the settings, the synced storage (the
    keys [apiKey] and [space]) and the requests made. *)
Definition handleTestConnection (st : Settings) (sync : gmap string string)
  : Settings * gmap string string * list RestClient.Call :=
  if negb (truthy (Some (localApiKey st))) || negb (truthy (Some (localSpace st))) then
    (mkSettings (localApiKey st) (localSpace st) error missing_message
                (projects st) (priorities st), sync, [])
  else
    let st := mkSettings (localApiKey st) (localSpace st) testing "" (projects st) (priorities st) in
    match BacklogApi.constructor (localSpace st) (localApiKey st) with
    | Throw e => (failed st e, sync, [])
    | Ok client =>
        match RestClient.testConnection new_URL URL_toString fetch_myself client with
        | (Throw e, calls1) => (failed st e, sync, calls1)
        | (Ok _, calls1) =>
            let st := mkSettings (localApiKey st) (localSpace st) success connected_message
                                 (projects st) (priorities st) in
            let sync := <["space" := localSpace st]> (<["apiKey" := localApiKey st]> sync) in
            match RestClient.getProjects new_URL URL_toString fetch_projects client with
            | (Throw e, calls2) => (failed st e, sync, (calls1 ++ calls2)%list)
            | (Ok projectList, calls2) =>
                let st := mkSettings (localApiKey st) (localSpace st) (testStatus st)
                                     (testMessage st)
                                     (List.filter (fun p => negb (Popup.archived p)) projectList)
                                     (priorities st) in
                match RestClient.getPriorities new_URL URL_toString fetch_priorities client with
                | (Throw e, calls3) => (failed st e, sync, (calls1 ++ calls2 ++ calls3)%list)
                | (Ok priorityList, calls3) =>
                    (mkSettings (localApiKey st) (localSpace st) (testStatus st) (testMessage st)
                                (projects st) priorityList,
                     sync, (calls1 ++ calls2 ++ calls3)%list)
                end
            end
        end
    end.

End Handlers.

End Options.

(** ** The end of a completed run of the content script *)

Module Completion.

(** What [fill] does last: the style sheet, the notification, and
    the timer that removes both. *)
Definition notice : list ContentScript.Event :=
  [ ContentScript.AppendToHead ContentScript.style;
    ContentScript.AppendToBody ContentScript.notification;
    ContentScript.SetTimeout 3000 ].

End Completion.

(** ** More concrete inputs *)

Module Cases.

(** A stand-in for [url.toString()]: the address, a question mark
    and the pairs of the query. *)
Definition URL_text (u : BacklogApi.URL) : string :=
  BacklogApi.address u +:+ "?"
    +:+ join "&" (map (fun kv => fst kv +:+ "=" +:+ snd kv) (BacklogApi.searchParams u)).

(** A stand-in for the text of a [URLSearchParams]. *)
Definition form_text (entries : list (string * string)) : string :=
  join "&" (map (fun kv => fst kv +:+ "=" +:+ snd kv) entries).

Definition server_error : BacklogApi.Response :=
  BacklogApi.mkResponse 500
    (Ok (Some (BacklogApi.mkErrorData (Some [BacklogApi.mkApiError "No such project"])))).

Definition unauthorized : BacklogApi.Response :=
  BacklogApi.mkResponse 401 (Throw (mkError "SyntaxError" "Unexpected end of JSON input")).

Definition created : BacklogApi.Response := BacklogApi.mkResponse 201 (Ok None).

(** Servers that answer every request in the same way. *)
Definition answers {T} (head : BacklogApi.Response) (data : result T) : RestClient.Fetch T :=
  fun _ _ _ => Ok (RestClient.mkReply head data).

Definition rejects {T} (e : Error) : RestClient.Fetch T := fun _ _ _ => Throw e.

Definition no_json : Error := mkError "SyntaxError" "Unexpected end of JSON input".
Definition aborted : Error := mkError "AbortError" "The user aborted a request.".
Definition offline : Error := mkError "TypeError" "Failed to fetch".

Definition issues_url : BacklogApi.URL :=
  BacklogApi.mkURL "https://example.backlog.com/api/v2/issues" [("apiKey", "secret")].

(** A form with every required field, and one with a blank title. *)
Definition ready_form : Popup.State :=
  Popup.mkState (Some "example.backlog.com") " Broken link " "URL: https://example.com"
                "12" "3" "2" "" [Popup.mkProject 12 "WEB" "Web site" false]
                "" None false.

Definition blank_form : Popup.State :=
  Popup.mkState (Some "example.backlog.com") "   " "URL: https://example.com"
                "12" "3" "2" "" [Popup.mkProject 12 "WEB" "Web site" false]
                "" None false.

Definition ready : PopupHandlers.Submit :=
  PopupHandlers.mkSubmit ready_form (Some "secret") PopupHandlers.idle "".

Definition with_blank_title : PopupHandlers.Submit :=
  PopupHandlers.mkSubmit blank_form (Some "secret") PopupHandlers.idle "".

Definition with_screenshot : PopupHandlers.Submit :=
  PopupHandlers.mkSubmit
    (Popup.setScreenshotDataUrl ready_form (Some "data:image/png;base64,aGk="))
    (Some "secret") PopupHandlers.idle "".

Definition iso_time : string := "2026-01-02T03:04:05.678Z".

Definition upload_address : BacklogApi.URL :=
  BacklogApi.mkURL "https://example.backlog.com/api/v2/space/attachment" [("apiKey", "secret")].

Definition new_issue : Types.BacklogIssue := Types.mkIssue 101 "WEB-7" "Broken link".

Definition new_attachment : Types.BacklogAttachment :=
  Types.mkAttachment 55 "screenshot.png" 2.

End Cases.

(** * Properties *)

(** ** The data-URL decoder *)

Lemma dataURLtoBlob_loops_agree (bstr : string) (n : nat) (u8arr : list Z) :
  Popup.dataURLtoBlob_loop bstr n u8arr = ContentScript.dataURLtoBlob_loop bstr n u8arr.
Proof.
  revert u8arr. induction n as [|m IH]; intros u8arr; simpl.
  - reflexivity.
  - apply IH.
Qed.

Lemma charCodeAt_lookup (bstr : string) (m : nat) :
  charCodeAt bstr m = (fun c => Z.of_N (N_of_ascii c)) <$> (list_ascii_of_string bstr !! m).
Proof.
  unfold charCodeAt. revert m. induction bstr as [|c bstr IH]; intros [|m]; simpl; try reflexivity.
  apply IH.
Qed.

Lemma to_uint8_code (c : ascii) : to_uint8 (Some (Z.of_N (N_of_ascii c))) = Z.of_N (N_of_ascii c).
Proof.
  unfold to_uint8. apply Z.mod_small.
  pose proof (N_ascii_bounded c). lia.
Qed.

(** The loop fills the array from the last index down to the first:
    after [n] rounds started at [n], the first [n] cells hold the
    character codes. *)
Lemma dataURLtoBlob_loop_prefix (bstr : string) (n : nat) (u8arr : list Z) :
  (n <= String.length bstr)%nat -> length u8arr = String.length bstr ->
  Popup.dataURLtoBlob_loop bstr n u8arr
  = (take n (map (fun c => Z.of_N (N_of_ascii c)) (list_ascii_of_string bstr))
       ++ drop n u8arr)%list.
Proof.
  set (codes := map (fun c => Z.of_N (N_of_ascii c)) (list_ascii_of_string bstr)).
  assert (Hlen : length codes = String.length bstr).
  { unfold codes. rewrite length_map. clear. induction bstr; simpl; congruence. }
  revert u8arr. induction n as [|m IH]; intros u8arr Hn Harr; simpl.
  - now rewrite drop_0.
  - destruct (lookup_lt_is_Some_2 codes m) as [v Hv]; [lia|].
    assert (Hcode : to_uint8 (charCodeAt bstr m) = v).
    { rewrite charCodeAt_lookup. unfold codes in Hv. rewrite list_lookup_fmap in Hv.
      destruct (list_ascii_of_string bstr !! m) as [c|]; [|discriminate].
      simpl in Hv |- *. injection Hv as <-. apply to_uint8_code. }
    rewrite Hcode, IH; [|lia|now rewrite length_insert].
    rewrite (take_S_r codes m v Hv), <- app_assoc. f_equal.
    rewrite insert_take_drop by lia.
    rewrite drop_app_length' by (rewrite length_take; lia).
    reflexivity.
Qed.

(** The bytes of the blob are the character codes of the decoded
    string, in order. *)
Lemma dataURLtoBlob_loop_char_codes (bstr : string) :
  Popup.dataURLtoBlob_loop bstr (String.length bstr) (replicate (String.length bstr) 0)
  = map (fun c => Z.of_N (N_of_ascii c)) (list_ascii_of_string bstr).
Proof.
  rewrite dataURLtoBlob_loop_prefix; [|lia|apply length_replicate].
  rewrite drop_ge by (rewrite length_replicate; lia).
  rewrite app_nil_r. apply take_ge.
  rewrite length_map. clear. induction bstr; simpl; lia.
Qed.

(** C8: the decoder of the popup and the decoder of the content script
    give the same completion on every input: the same thrown error, or
    blobs with the same bytes and the same MIME type. *)
Theorem dataURLtoBlob_copies_agree (dataUrl : string) :
  Popup.dataURLtoBlob dataUrl = ContentScript.dataURLtoBlob dataUrl.
Proof.
  unfold Popup.dataURLtoBlob, ContentScript.dataURLtoBlob.
  destruct (split "," dataUrl !! 0%nat) as [arr0|]; [|reflexivity].
  destruct (atob_arg (split "," dataUrl !! 1%nat)) as [bstr|e]; simpl.
  - now rewrite dataURLtoBlob_loops_agree.
  - reflexivity.
Qed.

(** ** The REST client *)

Lemma or_else_nonempty (s d : string) : s <> "" -> or_else (Some s) d = s.
Proof. destruct s; [congruence | reflexivity]. Qed.

Lemma truthy_nonempty (s : string) : s <> "" -> truthy (Some s) = true.
Proof. destruct s; [congruence | reflexivity]. Qed.

(** The greedy group of [https:\/\/(.+)\/api] on [s/api/v2] is [s]
    itself: no later [/api] exists, and [.] accepts all of [s]. *)
Lemma greedy_dots_api_recovers (s : string) :
  s <> "" -> has_line_terminator s = false ->
  greedy_dots_api (s +:+ "/api/v2") = Some s.
Proof.
  induction s as [|c s IH]; intros Hne Hlt; [congruence|].
  simpl in Hlt. apply orb_false_iff in Hlt as [Hc Hs].
  change (String c s +:+ "/api/v2") with (String c (s +:+ "/api/v2")).
  cbn [greedy_dots_api]. rewrite Hc.
  destruct s as [|d s].
  - reflexivity.
  - rewrite IH; [reflexivity | congruence | exact Hs].
Qed.

Lemma match_space_unfold (s : string) :
  match_space s =
  match match_space_here s with
  | Some g => Some g
  | None => match s with EmptyString => None | String _ s' => match_space s' end
  end.
Proof. destruct s; reflexivity. Qed.

Lemma match_space_baseURL (s : string) :
  s <> "" -> has_line_terminator s = false ->
  match_space ("https://" +:+ s +:+ "/api/v2") = Some s.
Proof.
  intros Hne Hlt. rewrite match_space_unfold.
  unfold match_space_here.
  change (strip_prefix "https://" ("https://" +:+ s +:+ "/api/v2"))
    with (Some (s +:+ "/api/v2")).
  cbv beta iota. now rewrite greedy_dots_api_recovers.
Qed.

(** C10, counterexample: with the one-character space LF the client is
    built, and [getIssueUrl] answers [https:///view/WEB-1], which is not
    [https://] ++ space ++ [/view/WEB-1]. *)
Lemma getIssueUrl_line_feed_counterexample :
  Samples.line_feed_space <> ""
  /\ BacklogApi.constructor Samples.line_feed_space "secret"
     = Ok (BacklogApi.mkClient ("https://" +:+ Samples.line_feed_space +:+ "/api/v2") "secret" 30000)
  /\ BacklogApi.getIssueUrl
       (BacklogApi.mkClient ("https://" +:+ Samples.line_feed_space +:+ "/api/v2") "secret" 30000)
       "WEB-1" = "https:///view/WEB-1"
  /\ BacklogApi.getIssueUrl
       (BacklogApi.mkClient ("https://" +:+ Samples.line_feed_space +:+ "/api/v2") "secret" 30000)
       "WEB-1" <> "https://" +:+ Samples.line_feed_space +:+ "/view/" +:+ "WEB-1".
Proof.
  repeat split; try reflexivity; discriminate.
Qed.

(** C10, amended: for a non-empty space without a line terminator and a
    non-empty API key the constructor succeeds, and [getIssueUrl] of the
    client it builds is [https://] ++ space ++ [/view/] ++ issue key. *)
Theorem getIssueUrl_recovers_space (space apiKey issueKey : string) :
  space <> "" -> apiKey <> "" -> has_line_terminator space = false ->
  exists c,
    BacklogApi.constructor space apiKey = Ok c
    /\ BacklogApi.getIssueUrl c issueKey = "https://" +:+ space +:+ "/view/" +:+ issueKey.
Proof.
  intros Hs Hk Hlt.
  exists (BacklogApi.mkClient ("https://" +:+ space +:+ "/api/v2") apiKey 30000).
  split.
  - unfold BacklogApi.constructor.
    now rewrite (truthy_nonempty space Hs), (truthy_nonempty apiKey Hk).
  - unfold BacklogApi.getIssueUrl. cbn [BacklogApi.baseURL].
    rewrite (match_space_baseURL space Hs Hlt).
    now rewrite (or_else_nonempty space "" Hs).
Qed.

(** The amended statement at the space [example.backlog.com]. *)
Lemma getIssueUrl_recovers_space_witness :
  exists c,
    BacklogApi.constructor "example.backlog.com" "secret" = Ok c
    /\ BacklogApi.getIssueUrl c "WEB-1" = "https://example.backlog.com/view/WEB-1".
Proof.
  apply (getIssueUrl_recovers_space "example.backlog.com" "secret" "WEB-1");
    [discriminate | discriminate | reflexivity].
Defined.

(** C3: [handleErrorResponse] always throws, and the message of the
    error is the documented one for the status (the fixed text for 401,
    404 and 429, otherwise the messages of the error body joined by a
    comma, or the generic text when the body gives none), followed by
    the status in the form [ (Status: n)]. *)
Theorem handleErrorResponse_documented_message (r : BacklogApi.Response) :
  BacklogApi.handleErrorResponse r =
  Throw (mkError "Error"
           (BacklogApi.documented_message (BacklogApi.status r) (BacklogApi.json r)
              +:+ " (Status: " +:+ pretty (BacklogApi.status r) +:+ ")")).
Proof.
  unfold BacklogApi.handleErrorResponse. do 3 f_equal.
  destruct r as [status body]; cbn [BacklogApi.status BacklogApi.json].
  destruct (Z.eqb_spec status 401) as [->|H401]; [reflexivity|].
  destruct (Z.eqb_spec status 404) as [->|H404]; [reflexivity|].
  destruct (Z.eqb_spec status 429) as [->|H429]; [reflexivity|].
  assert (Hdoc : BacklogApi.documented_message status body =
                 match body with
                 | Ok (Some (BacklogApi.mkErrorData (Some es))) =>
                     join ", " (map BacklogApi.err_message es)
                 | _ => "Backlog API error"
                 end).
  { unfold BacklogApi.documented_message.
    destruct status as [|p|p]; try reflexivity.
    do 9 (destruct p as [p|p|]; try reflexivity); lia. }
  rewrite Hdoc. unfold BacklogApi.body_message; cbn [BacklogApi.json].
  destruct body as [[[[es|]]|]|e]; reflexivity.
Qed.

(** *** The API key in the query *)

Lemma append_defined_keeps (u : BacklogApi.URL) entries (kv : string * string) :
  In kv (BacklogApi.searchParams u) ->
  In kv (BacklogApi.searchParams (BacklogApi.append_defined u entries)).
Proof.
  revert u. induction entries as [|[k [v|]] rest IH]; intros u Hin; simpl.
  - exact Hin.
  - apply IH. simpl. apply in_or_app. now left.
  - now apply IH.
Qed.

Lemma append_defined_adds (u : BacklogApi.URL) entries (k : string) v :
  In (k, Some v) entries ->
  In (k, BacklogApi.String_of v) (BacklogApi.searchParams (BacklogApi.append_defined u entries)).
Proof.
  revert u. induction entries as [|[k' [v'|]] rest IH]; intros u Hin; simpl in *.
  - contradiction.
  - destruct Hin as [Heq|Hin].
    + inversion Heq; subst. apply append_defined_keeps. simpl.
      apply in_or_app. right. now left.
    + now apply IH.
  - destruct Hin as [Heq|Hin]; [discriminate | now apply IH].
Qed.

Lemma set_property_sets params (key : string) value :
  In (key, value) (BacklogApi.set_property params key value).
Proof.
  induction params as [|[k v] rest IH]; simpl.
  - now left.
  - destruct (String.eqb_spec k key) as [->|Hne]; simpl; [now left | now right].
Qed.

Lemma request_url_apiKey new_URL (c : BacklogApi.BacklogAPIClient) endpoint params u :
  BacklogApi.request_url new_URL c endpoint params = Ok u ->
  In ("apiKey", BacklogApi.apiKey c) (BacklogApi.searchParams u).
Proof.
  unfold BacklogApi.request_url.
  destruct (new_URL _) as [url|e]; simpl; [|discriminate].
  intros [= <-].
  apply (append_defined_adds url _ "apiKey" (BacklogApi.PString (BacklogApi.apiKey c))).
  apply set_property_sets.
Qed.

Lemma upload_url_apiKey new_URL (c : BacklogApi.BacklogAPIClient) u :
  BacklogApi.upload_url new_URL c = Ok u ->
  In ("apiKey", BacklogApi.apiKey c) (BacklogApi.searchParams u).
Proof.
  unfold BacklogApi.upload_url.
  destruct (new_URL _) as [url|e]; simpl; [|discriminate].
  intros [= <-]. simpl. apply in_or_app. right. now left.
Qed.

(** Whatever [params] a caller of [request] passes, also an [apiKey]
    of its own, the query carries the client's key. *)
Lemma request_url_overrides_caller new_URL (c : BacklogApi.BacklogAPIClient) endpoint other u :
  BacklogApi.request_url new_URL c endpoint [("apiKey", other)] = Ok u ->
  In ("apiKey", BacklogApi.apiKey c) (BacklogApi.searchParams u).
Proof. apply request_url_apiKey. Qed.

(** C5: for every operation of the client, the URL object whose text
    is fetched lists the client's [apiKey] under the name [apiKey] in
    its query. *)
Theorem operation_url_carries_apiKey
        (new_URL : string -> result BacklogApi.URL)
        (c : BacklogApi.BacklogAPIClient) (op : BacklogApi.Operation) (u : BacklogApi.URL) :
  BacklogApi.operation_url new_URL c op = Ok u ->
  In ("apiKey", BacklogApi.apiKey c) (BacklogApi.searchParams u).
Proof.
  destruct op; cbn [BacklogApi.operation_url];
    (apply request_url_apiKey || apply upload_url_apiKey).
Qed.

(** The statement at [getIssueTypes("WEB")] of the sample client. *)
Lemma operation_url_carries_apiKey_witness :
  BacklogApi.operation_url Samples.plain_URL Samples.client (BacklogApi.getIssueTypes "WEB")
  = Ok (BacklogApi.mkURL "https://example.backlog.com/api/v2/projects/WEB/issueTypes"
                         [("apiKey", "secret")])
  /\ In ("apiKey", "secret") [("apiKey", "secret")].
Proof.
  split; [reflexivity|].
  apply (operation_url_carries_apiKey Samples.plain_URL Samples.client
           (BacklogApi.getIssueTypes "WEB")
           (BacklogApi.mkURL "https://example.backlog.com/api/v2/projects/WEB/issueTypes"
                             [("apiKey", "secret")])).
  reflexivity.
Defined.

(** ** Screenshot capture *)

(** C7, counterexample: the capture fails with an error whose message
    is empty; the listener replies with that message, and the popup
    shows the fixed failure text, not the message. *)
Lemma capture_empty_message_counterexample :
  Background.captureScreenshot Samples.silent_failure = Throw (mkError "Error" "")
  /\ Background.onMessage Samples.silent_failure "CAPTURE_SCREENSHOT"
     = Some (Background.mkReply false None (Some ""))
  /\ (exists st',
        Popup.capture Samples.silent_failure Samples.popup_state = Ok st'
        /\ Popup.errorMessage st' = Popup.capture_failed
        /\ Popup.errorMessage st' <> message (mkError "Error" "")).
Proof.
  split; [reflexivity|]. split; [reflexivity|].
  eexists. split; [reflexivity|]. split; [reflexivity|]. discriminate.
Qed.

(** C7, amended: when the capture fails, the listener replies with
    success false and the error's message, and the popup, without
    throwing, shows that message if it is not empty and the fixed
    failure text if it is; when the capture succeeds, the listener
    replies with the data URL and the popup stores it as the
    screenshot. In both cases the capturing flag ends false. *)
Theorem capture_outcome (tabs : Background.Tabs) (st : Popup.State) :
  match Background.captureScreenshot tabs with
  | Throw e =>
      Background.onMessage tabs "CAPTURE_SCREENSHOT"
      = Some (Background.mkReply false None (Some (message e)))
      /\ Popup.capture tabs st
         = Ok (Popup.setCapturingScreenshot
                 (Popup.setErrorMessage st (or_else (Some (message e)) Popup.capture_failed))
                 false)
  | Ok dataUrl =>
      Background.onMessage tabs "CAPTURE_SCREENSHOT"
      = Some (Background.mkReply true (Some dataUrl) None)
      /\ Popup.capture tabs st
         = Ok (Popup.setCapturingScreenshot (Popup.setScreenshotDataUrl st (Some dataUrl)) false)
  end.
Proof.
  unfold Popup.capture, Background.onMessage.
  change (String.eqb "CAPTURE_SCREENSHOT" "CAPTURE_SCREENSHOT") with true. cbv iota.
  destruct (Background.captureScreenshot tabs) as [dataUrl|e]; split; reflexivity.
Qed.

(** The failures of the service: no tab, a tab without an id, and a
    capture that throws. *)
Lemma captureScreenshot_no_tab capture :
  Background.captureScreenshot (Background.mkTabs (Ok []) capture)
  = Throw (mkError "Error" "No active tab found").
Proof. reflexivity. Qed.

Lemma captureScreenshot_no_id capture w rest :
  Background.captureScreenshot (Background.mkTabs (Ok (Background.mkTab None w :: rest)) capture)
  = Throw (mkError "Error" "No active tab found").
Proof. reflexivity. Qed.

Lemma captureScreenshot_capture_throws i w rest e :
  i <> 0 ->
  Background.captureScreenshot
    (Background.mkTabs (Ok (Background.mkTab (Some i) w :: rest)) (fun _ => Throw e))
  = Throw e.
Proof.
  intros Hi. unfold Background.captureScreenshot; simpl.
  destruct (Z.eqb_spec i 0); [contradiction | reflexivity].
Qed.

(** ** The staged handoff record *)

(** popup.tsx stores the seven fields, [timestamp] being the time of
    the write. *)
Lemma openBacklogIssuePage_stores_timestamp now (f : Popup.State) (x : Popup.Extension) p :
  Popup.find_selected f = Some p -> truthy (Popup.space f) = true ->
  exists r,
    Popup.local (Popup.openBacklogIssuePage now f x) !! Handoff.key = Some r
    /\ Handoff.timestamp r = Some now.
Proof.
  intros Hp Hs. unfold Popup.openBacklogIssuePage. rewrite Hp, Hs. cbn [negb].
  eexists. split; [apply lookup_insert_eq | reflexivity].
Qed.

(** The copy in src/unnamed/part_001 stores six fields and no
    [timestamp]. *)
Lemma openBacklogIssuePage_copy_no_timestamp (f : Popup.State) (x : Popup.Extension) p :
  Popup.find_selected f = Some p -> truthy (Popup.space f) = true ->
  exists r,
    Popup.local (PopupCopy.openBacklogIssuePage f x) !! Handoff.key = Some r
    /\ Handoff.timestamp r = None.
Proof.
  intros Hp Hs. unfold PopupCopy.openBacklogIssuePage. rewrite Hp, Hs. cbn [negb].
  eexists. split; [apply lookup_insert_eq | reflexivity].
Qed.

(** C4: on the sample form the copy of [openBacklogIssuePage] in
    src/unnamed/part_001 stores a record without [timestamp], where
    popup.tsx stores the same record with the time of the write; the
    age check of the content script accepts such a record whatever
    the clock reads. *)
Theorem openBacklogIssuePage_copy_omits_timestamp :
  Popup.local (PopupCopy.openBacklogIssuePage Samples.popup_state Samples.empty_extension)
    !! Handoff.key = Some Samples.record_without_timestamp
  /\ Handoff.timestamp Samples.record_without_timestamp = None
  /\ (forall now,
        exists r,
          Popup.local (Popup.openBacklogIssuePage now Samples.popup_state Samples.empty_extension)
            !! Handoff.key = Some r
          /\ Handoff.timestamp r = Some now)
  /\ (forall browser, ContentScript.too_old browser Samples.record_without_timestamp = false).
Proof.
  split; [apply lookup_insert_eq|]. split; [reflexivity|]. split.
  - intros now. eexists. split; [apply lookup_insert_eq | reflexivity].
  - reflexivity.
Qed.

(** ** The content script *)

Section ContentScriptFacts.

Import ContentScript Effects.

Variable browser : Browser.

Lemma emits_ret {A} P (a : A) : emits P (ret a).
Proof.
  intros w. cbn. repeat split. exists []. now rewrite app_nil_r.
Qed.

Lemma emits_lift {A} P (r : result A) : emits P (lift r).
Proof.
  intros w. cbn. repeat split. exists []. now rewrite app_nil_r.
Qed.

Lemma emits_bind {A B} (P : Event -> Prop) (m : M A) (k : A -> M B) :
  emits P m -> (forall a, emits P (k a)) -> emits P (bindM m k).
Proof.
  intros Hm Hk w. unfold bindM.
  destruct (Hm w) as (Hl & Hr & evs & Ht & HP).
  destruct (m w) as [[a|e] w1]; cbn in *.
  - destruct (Hk a w1) as (Hl' & Hr' & evs' & Ht' & HP').
    repeat split; [congruence | congruence |].
    exists (evs ++ evs')%list. split.
    + rewrite Ht', Ht. now rewrite app_assoc.
    + now apply Forall_app.
  - repeat split; try assumption. now exists evs.
Qed.

Lemma emits_when P (b : bool) (m : M unit) : emits P m -> emits P (when b m).
Proof. destruct b; [trivial | intros _; apply emits_ret]. Qed.

Lemma emits_wait (P : Event -> Prop) ms : P (Wait ms) -> emits P (wait ms).
Proof.
  intros HP w. cbn. repeat split. exists [Wait ms]. split; [reflexivity | now constructor].
Qed.

Lemma emits_setTimeout (P : Event -> Prop) ms : P (SetTimeout ms) -> emits P (setTimeout ms).
Proof.
  intros HP w. cbn. repeat split. exists [SetTimeout ms].
  split; [reflexivity | now constructor].
Qed.

Lemma emits_perform (P : Event -> Prop) e : P e -> emits P (perform browser e).
Proof.
  intros HP w. unfold perform. destruct (refuses browser (trace w) e); cbn.
  - repeat split. exists []. now rewrite app_nil_r.
  - repeat split. exists [e]. split; [reflexivity | now constructor].
Qed.

Lemma emits_document_querySelector P selector :
  emits P (document_querySelector browser selector).
Proof. intros w. cbn. repeat split. exists []. now rewrite app_nil_r. Qed.

Lemma emits_element_querySelector P root selector :
  emits P (element_querySelector browser root selector).
Proof. intros w. cbn. repeat split. exists []. now rewrite app_nil_r. Qed.

Lemma emits_element_getAttribute P el name :
  emits P (element_getAttribute browser el name).
Proof. intros w. cbn. repeat split. exists []. now rewrite app_nil_r. Qed.

Lemma emits_window_getSelection P : emits P (window_getSelection browser).
Proof. intros w. cbn. repeat split. exists []. now rewrite app_nil_r. Qed.

(** Goals of the form [emits P m] for a script [m] built from the
    steps above, with [P] decided by computation on each event. *)
Ltac emits_step :=
  first
    [ apply emits_ret
    | apply emits_lift
    | apply emits_document_querySelector
    | apply emits_element_querySelector
    | apply emits_element_getAttribute
    | apply emits_window_getSelection
    | apply emits_wait; exact I
    | apply emits_setTimeout; exact I
    | apply emits_perform; exact I
    | apply emits_when
    | apply emits_bind; [|intros ?]
    | match goal with
      | |- emits _ (match ?x with _ => _ end) => destruct x
      end ].

Ltac emits_script := repeat emits_step.

Lemma emits_setReactInputValue element value :
  emits not_notification (setReactInputValue browser element value).
Proof. unfold setReactInputValue. emits_script. Qed.

Lemma emits_pasteImageToEditor editor dataUrl :
  emits not_notification (pasteImageToEditor browser editor dataUrl).
Proof. unfold pasteImageToEditor. emits_script. Qed.

Lemma emits_selectComboboxOption labelId optionId :
  emits not_notification (selectComboboxOption browser labelId optionId).
Proof. unfold selectComboboxOption. emits_script. Qed.

Lemma emits_weaken {A} (P Q : Event -> Prop) (m : M A) :
  (forall e, P e -> Q e) -> emits P m -> emits Q m.
Proof.
  intros HPQ Hm w. destruct (Hm w) as (Hl & Hr & evs & Ht & HP).
  repeat split; try assumption. exists evs. split; [assumption|].
  eapply Forall_impl; eassumption.
Qed.

Lemma throws_silently_of_emits {A} (m : M A) : emits not_notification m -> throws_silently m.
Proof. intros Hm w e _. apply Hm. Qed.

Lemma throws_silently_bind {A B} (m : M A) (k : A -> M B) :
  emits not_notification m -> (forall a, throws_silently (k a)) ->
  throws_silently (bindM m k).
Proof.
  intros Hm Hk w e. unfold bindM.
  destruct (Hm w) as (Hl & Hr & evs & Ht & HP).
  destruct (m w) as [[a|e'] w1]; cbn in *.
  - intros Hthrow. destruct (Hk a w1 e Hthrow) as (Hl' & Hr' & evs' & Ht' & HP').
    repeat split; [congruence | congruence |].
    exists (evs ++ evs')%list. split.
    + rewrite Ht', Ht. now rewrite app_assoc.
    + now apply Forall_app.
  - intros _. repeat split; try assumption. now exists evs.
Qed.

(** The last three steps of [fill]: only [appendChild] can throw,
    and then nothing was appended. *)
Lemma throws_silently_notify :
  throws_silently
    (bindM (perform browser (AppendToBody (notification)))
           (fun _ => setTimeout 3000)).
Proof.
  intros w e. unfold bindM, perform.
  destruct (refuses browser (trace w) (AppendToBody notification)); cbn.
  - intros _. repeat split. exists []. now rewrite app_nil_r.
  - discriminate.
Qed.

Lemma fill_keeps_storage formData : emits any_event (fill browser formData).
Proof.
  unfold fill.
  repeat first
    [ apply (emits_weaken not_notification any_event);
        [ intros; exact I
        | first [ apply emits_setReactInputValue
                | apply emits_pasteImageToEditor
                | apply emits_selectComboboxOption ] ]
    | emits_step ].
Qed.

Lemma fill_throws_silently formData : throws_silently (fill browser formData).
Proof.
  unfold fill.
  repeat first
    [ apply throws_silently_notify
    | apply throws_silently_bind; [|intros ?]
    | apply emits_setReactInputValue
    | apply emits_pasteImageToEditor
    | apply emits_selectComboboxOption
    | emits_step ].
Qed.

End ContentScriptFacts.

Lemma fillForm_without_record (browser : ContentScript.Browser) (w : ContentScript.World) :
  ContentScript.local w !! Handoff.key = None ->
  ContentScript.fillForm browser w = (Ok tt, w).
Proof.
  intros Hnone. unfold ContentScript.fillForm, ContentScript.bindM, ContentScript.storage_get.
  now rewrite Hnone.
Qed.

(** With a record in storage [fillForm] removes it and then either
    returns at once or goes on to [fill]. *)
Lemma fillForm_with_record (browser : ContentScript.Browser) (w : ContentScript.World) fd :
  ContentScript.local w !! Handoff.key = Some fd ->
  ContentScript.fillForm browser w =
  let w1 := ContentScript.mkWorld (delete Handoff.key (ContentScript.local w))
                                  (ContentScript.removed w ++ [Handoff.key])
                                  (ContentScript.trace w) in
  if ContentScript.too_old browser fd then (Ok tt, w1)
  else if ContentScript.nothing_to_fill fd then (Ok tt, w1)
  else ContentScript.fill browser fd w1.
Proof.
  intros Hsome. unfold ContentScript.fillForm, ContentScript.bindM, ContentScript.storage_get.
  rewrite Hsome. cbn.
  destruct (ContentScript.too_old browser fd); [reflexivity|].
  destruct (ContentScript.nothing_to_fill fd); reflexivity.
Qed.

(** C1: when the record under [backlogQuickFormData] carries a
    timestamp and the clock minus that timestamp exceeds 5000 ms,
    [fillForm] returns normally and the trace of what was done to the
    page is as it was: no value set, no editor content, no click, no
    notification. *)
Theorem fillForm_stale_record_not_applied
        (browser : ContentScript.Browser) (w : ContentScript.World)
        (fd : Handoff.FormData) (t : Z) :
  ContentScript.local w !! Handoff.key = Some fd ->
  Handoff.timestamp fd = Some t ->
  ContentScript.now browser - t > 5000 ->
  (ContentScript.fillForm browser w).1 = Ok tt
  /\ ContentScript.trace (ContentScript.fillForm browser w).2 = ContentScript.trace w.
Proof.
  intros Hrec Ht Hage. rewrite (fillForm_with_record browser w fd Hrec). cbv zeta.
  assert (Hold : ContentScript.too_old browser fd = true).
  { unfold ContentScript.too_old, ContentScript.MAX_AGE_MS. rewrite Ht.
    apply Z.gtb_lt. lia. }
  rewrite Hold. split; reflexivity.
Qed.

(** The statement for a record staged at 1000 and read at 10000. *)
Lemma fillForm_stale_record_not_applied_witness :
  (ContentScript.fillForm (Samples.page 10000) (Samples.world Samples.staged)).1 = Ok tt
  /\ ContentScript.trace
       (ContentScript.fillForm (Samples.page 10000) (Samples.world Samples.staged)).2
     = ContentScript.trace (Samples.world Samples.staged).
Proof.
  apply (fillForm_stale_record_not_applied
           (Samples.page 10000) (Samples.world Samples.staged) Samples.staged 1000);
    [reflexivity | reflexivity | reflexivity].
Defined.

(** C2: when a record is stored under [backlogQuickFormData],
    [fillForm] ends with the record deleted and with exactly one more
    call of [chrome.storage.local.remove], for that key, whatever the
    age check decides and whether or not the fields are used or a later
    step throws; without a record the world is left as it was. *)
Theorem fillForm_removes_record_once
        (browser : ContentScript.Browser) (w : ContentScript.World) :
  match ContentScript.local w !! Handoff.key with
  | Some _ =>
      ContentScript.local (ContentScript.fillForm browser w).2
      = delete Handoff.key (ContentScript.local w)
      /\ ContentScript.removed (ContentScript.fillForm browser w).2
         = (ContentScript.removed w ++ [Handoff.key])%list
  | None => ContentScript.fillForm browser w = (Ok tt, w)
  end.
Proof.
  destruct (ContentScript.local w !! Handoff.key) as [fd|] eqn:Hrec.
  - rewrite (fillForm_with_record browser w fd Hrec). cbv zeta.
    destruct (ContentScript.too_old browser fd); [split; reflexivity|].
    destruct (ContentScript.nothing_to_fill fd); [split; reflexivity|].
    destruct (fill_keeps_storage browser fd
                (ContentScript.mkWorld (delete Handoff.key (ContentScript.local w))
                                       (ContentScript.removed w ++ [Handoff.key])
                                       (ContentScript.trace w)))
      as (Hl & Hr & _).
    split; assumption.
  - now apply fillForm_without_record.
Qed.

(** C9: a record that passes the age check and whose six fields are
    all [null] is removed from storage, and [fillForm] returns normally
    with the trace of the page as it was. *)
Theorem fillForm_blank_record_leaves_page
        (browser : ContentScript.Browser) (w : ContentScript.World) (fd : Handoff.FormData) :
  ContentScript.local w !! Handoff.key = Some fd ->
  ContentScript.too_old browser fd = false ->
  Handoff.summary fd = None ->
  Handoff.description fd = None ->
  Handoff.issueTypeId fd = None ->
  Handoff.priorityId fd = None ->
  Handoff.assigneeId fd = None ->
  Handoff.screenshotDataUrl fd = None ->
  (ContentScript.fillForm browser w).1 = Ok tt
  /\ ContentScript.trace (ContentScript.fillForm browser w).2 = ContentScript.trace w
  /\ ContentScript.local (ContentScript.fillForm browser w).2
     = delete Handoff.key (ContentScript.local w)
  /\ ContentScript.removed (ContentScript.fillForm browser w).2
     = (ContentScript.removed w ++ [Handoff.key])%list.
Proof.
  intros Hrec Hfresh H1 H2 H3 H4 H5 H6.
  rewrite (fillForm_with_record browser w fd Hrec). cbv zeta. rewrite Hfresh.
  unfold ContentScript.nothing_to_fill. rewrite H1, H2, H3, H4, H5, H6. cbn.
  repeat split.
Qed.

(** The statement for the blank record staged at 1000 and read at 3000. *)
Lemma fillForm_blank_record_leaves_page_witness :
  (ContentScript.fillForm (Samples.page 3000) (Samples.world Samples.blank)).1 = Ok tt
  /\ ContentScript.trace (ContentScript.fillForm (Samples.page 3000) (Samples.world Samples.blank)).2
     = ContentScript.trace (Samples.world Samples.blank)
  /\ ContentScript.local (ContentScript.fillForm (Samples.page 3000) (Samples.world Samples.blank)).2
     = delete Handoff.key (ContentScript.local (Samples.world Samples.blank))
  /\ ContentScript.removed (ContentScript.fillForm (Samples.page 3000) (Samples.world Samples.blank)).2
     = (ContentScript.removed (Samples.world Samples.blank) ++ [Handoff.key])%list.
Proof.
  apply (fillForm_blank_record_leaves_page
           (Samples.page 3000) (Samples.world Samples.blank) Samples.blank);
    reflexivity.
Defined.

(** C6: the entry point of the content script always completes
    normally. Its handler does nothing: the world it leaves is the one
    [fillForm] left (or the initial one when the extension context is
    not valid), and when [fillForm] threw, what was done to the page up
    to then contains no notification. *)
Theorem run_swallows_errors (browser : ContentScript.Browser) (w : ContentScript.World) :
  (ContentScript.run browser w).1 = Ok tt
  /\ (ContentScript.run browser w).2
     = (if ContentScript.isExtensionContextValid browser
        then (ContentScript.fillForm browser w).2 else w)
  /\ match (ContentScript.fillForm browser w).1 with
     | Throw _ =>
         exists evs,
           ContentScript.trace (ContentScript.run browser w).2
           = (ContentScript.trace w ++ evs)%list
           /\ Forall Effects.not_notification evs
     | Ok _ => True
     end.
Proof.
  assert (Hrun : (ContentScript.run browser w).1 = Ok tt
                 /\ (ContentScript.run browser w).2
                    = (if ContentScript.isExtensionContextValid browser
                       then (ContentScript.fillForm browser w).2 else w)).
  { unfold ContentScript.run.
    destruct (ContentScript.isExtensionContextValid browser); [|split; reflexivity].
    destruct (ContentScript.fillForm browser w) as [[[]|e] w']; split; reflexivity. }
  destruct Hrun as [Hok Hworld]. split; [exact Hok|]. split; [exact Hworld|].
  destruct (ContentScript.fillForm browser w).1 as [[]|e] eqn:Hthrow; [exact I|].
  rewrite Hworld.
  destruct (ContentScript.isExtensionContextValid browser);
    [|exists []; split; [now rewrite app_nil_r | constructor]].
  destruct (ContentScript.local w !! Handoff.key) as [fd|] eqn:Hrec.
  - rewrite (fillForm_with_record browser w fd Hrec) in Hthrow |- *. cbv zeta in Hthrow |- *.
    destruct (ContentScript.too_old browser fd); [discriminate|].
    destruct (ContentScript.nothing_to_fill fd); [discriminate|].
    destruct (fill_throws_silently browser fd _ e Hthrow) as (_ & _ & evs & Ht & Hq).
    exists evs. split; [exact Ht | exact Hq].
  - rewrite (fillForm_without_record browser w Hrec) in Hthrow. discriminate.
Qed.

(** ** Runs on the sample page *)

Example dataURLtoBlob_jpeg :
  Popup.dataURLtoBlob "data:image/jpeg;base64,aGk=" = Ok (mkBlob [104; 105] "image/jpeg").
Proof. reflexivity. Qed.

(** Without a comma [arr[1]] is [undefined], and [atob] refuses the
    nine characters of its string form. *)
Example dataURLtoBlob_without_comma :
  ContentScript.dataURLtoBlob "data:image/png;base64" = Throw invalid_character.
Proof. reflexivity. Qed.

(** A record read two seconds after it was staged is applied. *)
Example fillForm_fresh_record :
  ContentScript.trace (ContentScript.fillForm (Samples.page 3000) (Samples.world Samples.staged)).2
  = [ ContentScript.Wait 2000;
      ContentScript.NativeSetValue 42%nat "Broken link";
      ContentScript.DispatchEvent 42%nat "input";
      ContentScript.DispatchEvent 42%nat "change";
      ContentScript.Click 57%nat;
      ContentScript.Wait 300;
      ContentScript.Click 10%nat;
      ContentScript.Wait 200;
      ContentScript.AppendToHead ContentScript.style;
      ContentScript.AppendToBody ContentScript.notification;
      ContentScript.SetTimeout 3000 ].
Proof. vm_compute. reflexivity. Qed.

(** A record without [timestamp] is applied however late it is read. *)
Example fillForm_record_without_timestamp :
  ContentScript.trace
    (ContentScript.fillForm (Samples.page 1000000000000)
                            (Samples.world Samples.record_without_timestamp)).2
  <> [].
Proof. vm_compute. discriminate. Qed.

(** A screenshot that does not decode stops the script; the entry
    point still completes, with the summary already filled in. *)
Example run_after_bad_screenshot :
  let fd := Handoff.mkFormData (Some "Broken link") None None None None
                               (Some "not a data URL") (Some 1000) in
  (ContentScript.fillForm (Samples.page 3000) (Samples.world fd)).1 = Throw invalid_character
  /\ (ContentScript.run (Samples.page 3000) (Samples.world fd)).1 = Ok tt
  /\ ContentScript.trace (ContentScript.run (Samples.page 3000) (Samples.world fd)).2
     = [ ContentScript.Wait 2000;
         ContentScript.NativeSetValue 42%nat "Broken link";
         ContentScript.DispatchEvent 42%nat "input";
         ContentScript.DispatchEvent 42%nat "change";
         ContentScript.Wait 500 ].
Proof. vm_compute. repeat split. Qed.

(** * Further properties *)

(** ** Decoding a data URL *)

Lemma split_without_separator (sep : ascii) (s : string) :
  Base64.has_char sep s = false -> split sep s = [s].
Proof.
  induction s as [|c s IH]; simpl; [reflexivity|].
  intros H. apply orb_false_iff in H as [Hc Hs].
  rewrite Hc, (IH Hs). reflexivity.
Qed.

Lemma split_at_first_separator (sep : ascii) (a b : string) :
  Base64.has_char sep a = false ->
  split sep (a +:+ String sep b) = a :: split sep b.
Proof.
  induction a as [|c a IH]; simpl.
  - intros _. now rewrite Ascii.eqb_refl.
  - intros H. apply orb_false_iff in H as [Hc Ha].
    rewrite Hc. change (String.app a (String sep b)) with (a +:+ String sep b).
    now rewrite (IH Ha).
Qed.

(** X1: a text without a comma is never decoded: [arr[1]] is
    [undefined] and [atob] refuses it, in both copies. *)
Theorem dataURLtoBlob_without_comma_throws (dataUrl : string) :
  Base64.has_char "," dataUrl = false ->
  Popup.dataURLtoBlob dataUrl = Throw invalid_character
  /\ ContentScript.dataURLtoBlob dataUrl = Throw invalid_character.
Proof.
  intros Hno. unfold Popup.dataURLtoBlob, ContentScript.dataURLtoBlob.
  rewrite (split_without_separator _ _ Hno). split; reflexivity.
Qed.

(** The statement at the text [data:image/png;base64]. *)
Lemma dataURLtoBlob_without_comma_throws_witness :
  Popup.dataURLtoBlob "data:image/png;base64" = Throw invalid_character
  /\ ContentScript.dataURLtoBlob "data:image/png;base64" = Throw invalid_character.
Proof.
  apply (dataURLtoBlob_without_comma_throws "data:image/png;base64"). reflexivity.
Defined.

(** *** The decoder inverts the standard encoding *)

Lemma b64_char_table : forallb Base64.b64_char_ok (map Z.of_nat (seq 0 64)) = true.
Proof. vm_compute. reflexivity. Qed.

Lemma b64_char_facts (v : Z) :
  0 <= v < 64 ->
  b64_value (Base64.b64_char v) = Some v
  /\ is_ascii_whitespace (Base64.b64_char v) = false
  /\ Ascii.eqb (Base64.b64_char v) "="%char = false
  /\ Ascii.eqb (Base64.b64_char v) ","%char = false.
Proof.
  intros Hv.
  assert (Hin : In v (map Z.of_nat (seq 0 64))).
  { apply in_map_iff. exists (Z.to_nat v). split; [lia|]. apply in_seq. lia. }
  pose proof (proj1 (forallb_forall _ _) b64_char_table v Hin) as Hok.
  unfold Base64.b64_char_ok in Hok.
  repeat (apply andb_true_iff in Hok as [Hok ?]).
  destruct (b64_value (Base64.b64_char v)) as [v'|]; [|discriminate].
  apply Z.eqb_eq in Hok. subst v'.
  repeat split; try reflexivity; now apply negb_true_iff.
Qed.

(** Induction over a list taken three elements at a time. *)
Lemma list_ind3 {A} (P : list A -> Prop) :
  P [] -> (forall a, P [a]) -> (forall a b, P [a; b]) ->
  (forall a b c rest, P rest -> P (a :: b :: c :: rest)) ->
  forall l, P l.
Proof.
  intros H0 H1 H2 H3 l.
  assert (Hall : P l /\ (forall a, P (a :: l)) /\ (forall a b, P (a :: b :: l))).
  { induction l as [|x l (IH0 & IH1 & IH2)].
    - repeat split; auto.
    - repeat split; auto. }
  exact (proj1 Hall).
Qed.

Lemma sextets_in_range (a b c : Z) :
  Base64.is_byte a -> Base64.is_byte b -> Base64.is_byte c ->
  0 <= a / 4 < 64
  /\ 0 <= (a mod 4) * 16 + b / 16 < 64
  /\ 0 <= (b mod 16) * 4 + c / 64 < 64
  /\ 0 <= c mod 64 < 64
  /\ 0 <= (a mod 4) * 16 < 64
  /\ 0 <= (b mod 16) * 4 < 64.
Proof.
  unfold Base64.is_byte. intros Ha Hb Hc.
  pose proof (Z.mod_pos_bound a 4). pose proof (Z.mod_pos_bound b 16).
  pose proof (Z.mod_pos_bound c 64).
  assert (0 <= a / 4 < 64) by (split; [apply Z.div_pos; lia | apply Z.div_lt_upper_bound; lia]).
  assert (0 <= b / 16 < 16) by (split; [apply Z.div_pos; lia | apply Z.div_lt_upper_bound; lia]).
  assert (0 <= c / 64 < 4) by (split; [apply Z.div_pos; lia | apply Z.div_lt_upper_bound; lia]).
  lia.
Qed.

Lemma strip_padding_rev_eqb (l : list ascii) :
  strip_padding_rev l =
  match l with
  | x :: rest =>
      if Ascii.eqb x "="%char then
        match rest with
        | y :: rest' => if Ascii.eqb y "="%char then rest' else rest
        | [] => rest
        end
      else l
  | [] => []
  end.
Proof.
  destruct l as [|x rest]; [reflexivity|].
  destruct x as [[] [] [] [] [] [] [] []]; try reflexivity.
  destruct rest as [|y rest']; [reflexivity|].
  destruct y as [[] [] [] [] [] [] [] []]; reflexivity.
Qed.

Lemma strip_padding_rev_app (l m : list ascii) :
  (2 <= length l)%nat -> strip_padding_rev (l ++ m) = (strip_padding_rev l ++ m)%list.
Proof.
  intros Hlen. destruct l as [|x [|y l]]; simpl in Hlen; try lia.
  rewrite !strip_padding_rev_eqb. simpl.
  destruct (Ascii.eqb x "="%char); [|reflexivity].
  destruct (Ascii.eqb y "="%char); reflexivity.
Qed.

Lemma strip_padding_rev_keeps (x : ascii) (l : list ascii) :
  Ascii.eqb x "="%char = false -> strip_padding_rev (x :: l) = x :: l.
Proof. intros Hx. rewrite strip_padding_rev_eqb. now rewrite Hx. Qed.

Lemma encode_length_4 (bytes : list Z) : Z.of_nat (length (Base64.encode bytes)) mod 4 = 0.
Proof.
  induction bytes as [| |a b|a b c rest IH] using list_ind3; try reflexivity.
  cbn [Base64.encode length].
  replace (Z.of_nat (S (S (S (S (length (Base64.encode rest)))))))
    with (Z.of_nat (length (Base64.encode rest)) + 1 * 4) by lia.
  now rewrite Z.mod_add by lia.
Qed.

Lemma encode_nonempty_length (bytes : list Z) :
  bytes <> [] -> (4 <= length (Base64.encode bytes))%nat.
Proof.
  destruct bytes as [|a [|b [|c rest]]]; [congruence| | |]; intros _; simpl; lia.
Qed.

(** The white-space filter of [atob] keeps an encoding as it is. *)
Lemma encode_without_whitespace (bytes : list Z) :
  Forall Base64.is_byte bytes ->
  filter (fun c => is_ascii_whitespace c = false) (Base64.encode bytes) = Base64.encode bytes.
Proof.
  induction bytes as [| |a b|a b c rest IH] using list_ind3; intros Hb.
  - reflexivity.
  - apply Forall_cons in Hb as [Ha _].
    destruct (sextets_in_range a 0 0 Ha) as (H1 & _ & _ & _ & H5 & _); [unfold Base64.is_byte; lia..|].
    cbn [Base64.encode].
    rewrite !filter_cons, (proj1 (proj2 (b64_char_facts _ H1))), (proj1 (proj2 (b64_char_facts _ H5))).
    reflexivity.
  - apply Forall_cons in Hb as [Ha Hb]. apply Forall_cons in Hb as [Hb _].
    destruct (sextets_in_range a b 0 Ha Hb) as (H1 & H2 & _ & _ & _ & H6); [unfold Base64.is_byte; lia|].
    cbn [Base64.encode].
    rewrite !filter_cons, (proj1 (proj2 (b64_char_facts _ H1))),
      (proj1 (proj2 (b64_char_facts _ H2))), (proj1 (proj2 (b64_char_facts _ H6))).
    reflexivity.
  - apply Forall_cons in Hb as [Ha Hb]. apply Forall_cons in Hb as [Hb Hc].
    apply Forall_cons in Hc as [Hc Hrest].
    destruct (sextets_in_range a b c Ha Hb Hc) as (H1 & H2 & H3 & H4 & _ & _).
    cbn [Base64.encode].
    rewrite !filter_cons, (proj1 (proj2 (b64_char_facts _ H1))),
      (proj1 (proj2 (b64_char_facts _ H2))), (proj1 (proj2 (b64_char_facts _ H3))),
      (proj1 (proj2 (b64_char_facts _ H4))).
    cbn. now rewrite (IH Hrest).
Qed.

(** Step 2 of [atob] removes exactly the padding. *)
Lemma encode_strip_padding (bytes : list Z) :
  Forall Base64.is_byte bytes ->
  rev (strip_padding_rev (rev (Base64.encode bytes))) = Base64.encode_unpadded bytes.
Proof.
  induction bytes as [| |a b|a b c rest IH] using list_ind3; intros Hb.
  - reflexivity.
  - cbn [Base64.encode Base64.encode_unpadded]. cbn [rev app].
    rewrite strip_padding_rev_eqb. reflexivity.
  - apply Forall_cons in Hb as [Ha Hb]. apply Forall_cons in Hb as [Hb _].
    destruct (sextets_in_range a b 0 Ha Hb) as (_ & _ & _ & _ & _ & H6); [unfold Base64.is_byte; lia|].
    cbn [Base64.encode Base64.encode_unpadded]. cbn [rev app].
    rewrite strip_padding_rev_eqb. cbn [Ascii.eqb]. change (Ascii.eqb "=" "=") with true. cbv iota.
    rewrite (proj1 (proj2 (proj2 (b64_char_facts _ H6)))). reflexivity.
  - apply Forall_cons in Hb as [Ha Hb]. apply Forall_cons in Hb as [Hb Hc].
    apply Forall_cons in Hc as [Hc Hrest].
    destruct (sextets_in_range a b c Ha Hb Hc) as (_ & _ & _ & H4 & _ & _).
    cbn [Base64.encode Base64.encode_unpadded].
    set (c1 := Base64.b64_char (a / 4)).
    set (c2 := Base64.b64_char (a mod 4 * 16 + b / 16)).
    set (c3 := Base64.b64_char (b mod 16 * 4 + c / 64)).
    set (c4 := Base64.b64_char (c mod 64)).
    change (c1 :: c2 :: c3 :: c4 :: Base64.encode rest)
      with ([c1; c2; c3; c4] ++ Base64.encode rest)%list.
    rewrite rev_app_distr.
    destruct rest as [|r rest'].
    + cbn [Base64.encode rev app].
      rewrite strip_padding_rev_keeps
        by exact (proj1 (proj2 (proj2 (b64_char_facts _ H4)))).
      reflexivity.
    + rewrite strip_padding_rev_app.
      * rewrite rev_app_distr, (IH Hrest). reflexivity.
      * rewrite length_rev.
        pose proof (encode_nonempty_length (r :: rest') ltac:(discriminate)). lia.
Qed.

Lemma div_eq (x d q r : Z) : 0 <= r < d -> x = d * q + r -> x / d = q.
Proof. intros Hr Hx. symmetry. now apply (Z.div_unique x d q r); [left|]. Qed.

Lemma byte_char_mod (x y : Z) : x mod 256 = y mod 256 -> byte_char x = byte_char y.
Proof. unfold byte_char. now intros ->. Qed.

(** Steps 4 to 10 of [atob] on an unpadded encoding give the bytes. *)
Lemma decode_unpadded (bytes : list Z) :
  Forall Base64.is_byte bytes ->
  exists vs,
    b64_values (Base64.encode_unpadded bytes) = Some vs
    /\ b64_bytes vs = map byte_char bytes.
Proof.
  induction bytes as [| |a b|a b c rest IH] using list_ind3; intros Hb.
  - exists []. split; reflexivity.
  - apply Forall_cons in Hb as [Ha _].
    destruct (sextets_in_range a 0 0 Ha) as (H1 & _ & _ & _ & H5 & _);
      [unfold Base64.is_byte; lia | unfold Base64.is_byte; lia|].
    eexists. split.
    + cbn [Base64.encode_unpadded b64_values].
      rewrite (proj1 (b64_char_facts _ H1)), (proj1 (b64_char_facts _ H5)). reflexivity.
    + cbn [b64_bytes map]. f_equal. apply byte_char_mod. f_equal.
      unfold Base64.is_byte in Ha.
      pose proof (Z.div_mod a 4 ltac:(lia)). pose proof (Z.mod_pos_bound a 4 ltac:(lia)).
      apply (div_eq _ _ _ (0)); lia.
  - apply Forall_cons in Hb as [Ha Hb]. apply Forall_cons in Hb as [Hb _].
    destruct (sextets_in_range a b 0 Ha Hb) as (H1 & H2 & _ & _ & _ & H6);
      [unfold Base64.is_byte; lia|].
    eexists. split.
    + cbn [Base64.encode_unpadded b64_values].
      rewrite (proj1 (b64_char_facts _ H1)), (proj1 (b64_char_facts _ H2)),
        (proj1 (b64_char_facts _ H6)). reflexivity.
    + cbn [b64_bytes map].
      unfold Base64.is_byte in Ha, Hb.
      pose proof (Z.div_mod a 4 ltac:(lia)). pose proof (Z.mod_pos_bound a 4 ltac:(lia)).
      pose proof (Z.div_mod b 16 ltac:(lia)). pose proof (Z.mod_pos_bound b 16 ltac:(lia)).
      assert (Hw : ((a / 4 * 64 + (a mod 4 * 16 + b / 16)) * 64 + b mod 16 * 4) / 4
                   = a * 256 + b)
        by (apply (div_eq _ _ _ (0)); lia).
      rewrite Hw. f_equal; [|f_equal]; apply byte_char_mod.
      * f_equal. apply (div_eq _ _ _ (b)); lia.
      * replace (a * 256 + b) with (b + a * 256) by lia. now rewrite Z.mod_add by lia.
  - apply Forall_cons in Hb as [Ha Hb]. apply Forall_cons in Hb as [Hb Hc].
    apply Forall_cons in Hc as [Hc Hrest].
    destruct (sextets_in_range a b c Ha Hb Hc) as (H1 & H2 & H3 & H4 & _ & _).
    destruct (IH Hrest) as (vs & Hvs & Hbytes).
    eexists. split.
    + cbn [Base64.encode_unpadded b64_values].
      rewrite (proj1 (b64_char_facts _ H1)), (proj1 (b64_char_facts _ H2)),
        (proj1 (b64_char_facts _ H3)), (proj1 (b64_char_facts _ H4)), Hvs. reflexivity.
    + cbn [b64_bytes map]. rewrite Hbytes.
      unfold Base64.is_byte in Ha, Hb, Hc.
      pose proof (Z.div_mod a 4 ltac:(lia)). pose proof (Z.mod_pos_bound a 4 ltac:(lia)).
      pose proof (Z.div_mod b 16 ltac:(lia)). pose proof (Z.mod_pos_bound b 16 ltac:(lia)).
      pose proof (Z.div_mod c 64 ltac:(lia)). pose proof (Z.mod_pos_bound c 64 ltac:(lia)).
      assert (Hw : ((a / 4 * 64 + (a mod 4 * 16 + b / 16)) * 64 + (b mod 16 * 4 + c / 64)) * 64
                   + c mod 64 = a * 65536 + b * 256 + c) by lia.
      rewrite Hw. f_equal; [|f_equal; [|f_equal]]; apply byte_char_mod.
      * f_equal. apply (div_eq _ _ _ (b * 256 + c)); lia.
      * replace ((a * 65536 + b * 256 + c) / 256) with (b + a * 256)
          by (symmetry; apply (div_eq _ _ _ (c)); lia).
        now rewrite Z.mod_add by lia.
      * replace (a * 65536 + b * 256 + c) with (c + (a * 256 + b) * 256) by lia.
        now rewrite Z.mod_add by lia.
Qed.

Lemma encode_unpadded_length (bytes : list Z) :
  Z.of_nat (length (Base64.encode_unpadded bytes)) mod 4 <> 1.
Proof.
  induction bytes as [| |a b|a b c rest IH] using list_ind3;
    [vm_compute; discriminate | vm_compute; discriminate | vm_compute; discriminate |].
  cbn [Base64.encode_unpadded length].
  replace (Z.of_nat (S (S (S (S (length (Base64.encode_unpadded rest)))))))
    with (Z.of_nat (length (Base64.encode_unpadded rest)) + 1 * 4) by lia.
  now rewrite Z.mod_add by lia.
Qed.

Lemma list_ascii_roundtrip (l : list ascii) :
  list_ascii_of_string (string_of_list_ascii l) = l.
Proof. induction l as [|c l IH]; simpl; congruence. Qed.

(** [atob] gives back the bytes of what the reference encoder wrote. *)
Lemma atob_encode (bytes : list Z) :
  Forall Base64.is_byte bytes ->
  atob (string_of_list_ascii (Base64.encode bytes))
  = Ok (string_of_list_ascii (map byte_char bytes)).
Proof.
  intros Hb. unfold atob.
  rewrite list_ascii_roundtrip, (encode_without_whitespace bytes Hb).
  rewrite encode_length_4. cbn [Z.eqb].
  rewrite (encode_strip_padding bytes Hb).
  destruct (Z.eqb_spec (Z.of_nat (length (Base64.encode_unpadded bytes)) mod 4) 1) as [H1|_].
  - now apply encode_unpadded_length in H1.
  - destruct (decode_unpadded bytes Hb) as (vs & -> & ->). reflexivity.
Qed.

Lemma append_cons (x : ascii) (a b : string) : String x a +:+ b = String x (a +:+ b).
Proof. reflexivity. Qed.



Lemma encode_without_comma (bytes : list Z) :
  Forall Base64.is_byte bytes ->
  Base64.has_char "," (string_of_list_ascii (Base64.encode bytes)) = false.
Proof.
  induction bytes as [| |a b|a b c rest IH] using list_ind3; intros Hb.
  - reflexivity.
  - apply Forall_cons in Hb as [Ha _].
    destruct (sextets_in_range a 0 0 Ha) as (H1 & _ & _ & _ & H5 & _);
      [unfold Base64.is_byte; lia | unfold Base64.is_byte; lia|].
    cbn [Base64.encode string_of_list_ascii Base64.has_char].
    rewrite (proj2 (proj2 (proj2 (b64_char_facts _ H1)))),
      (proj2 (proj2 (proj2 (b64_char_facts _ H5)))). reflexivity.
  - apply Forall_cons in Hb as [Ha Hb]. apply Forall_cons in Hb as [Hb _].
    destruct (sextets_in_range a b 0 Ha Hb) as (H1 & H2 & _ & _ & _ & H6);
      [unfold Base64.is_byte; lia|].
    cbn [Base64.encode string_of_list_ascii Base64.has_char].
    rewrite (proj2 (proj2 (proj2 (b64_char_facts _ H1)))),
      (proj2 (proj2 (proj2 (b64_char_facts _ H2)))),
      (proj2 (proj2 (proj2 (b64_char_facts _ H6)))). reflexivity.
  - apply Forall_cons in Hb as [Ha Hb]. apply Forall_cons in Hb as [Hb Hc].
    apply Forall_cons in Hc as [Hc Hrest].
    destruct (sextets_in_range a b c Ha Hb Hc) as (H1 & H2 & H3 & H4 & _ & _).
    cbn [Base64.encode string_of_list_ascii Base64.has_char].
    rewrite (proj2 (proj2 (proj2 (b64_char_facts _ H1)))),
      (proj2 (proj2 (proj2 (b64_char_facts _ H2)))),
      (proj2 (proj2 (proj2 (b64_char_facts _ H3)))),
      (proj2 (proj2 (proj2 (b64_char_facts _ H4)))).
    cbn [orb]. exact (IH Hrest).
Qed.


Lemma byte_char_code (b : Z) : Base64.is_byte b -> Z.of_N (N_of_ascii (byte_char b)) = b.
Proof.
  unfold Base64.is_byte, byte_char. intros Hb.
  rewrite Z.mod_small by lia. rewrite N_ascii_embedding by lia. lia.
Qed.






(** ** The requests of the REST client *)

Section RestClientFacts.

Context {T : Type}.
Variable new_URL : string -> result BacklogApi.URL.
Variable URL_toString : BacklogApi.URL -> string.
Variable fetch : RestClient.Fetch T.
Variable c : BacklogApi.BacklogAPIClient.

Lemma handleErrorResponse_throws (r : BacklogApi.Response) :
  exists e, BacklogApi.handleErrorResponse r = Throw e.
Proof. unfold BacklogApi.handleErrorResponse. eexists. reflexivity. Qed.

(** X4: a response that is not OK never gives a result: [request]
    throws, after exactly one call of [fetch]. *)
Theorem request_not_ok_throws endpoint params timeout fetchOptions url reply :
  BacklogApi.request_url new_URL c endpoint params = Ok url ->
  fetch (URL_toString url) (RestClient.sent fetchOptions)
        (default (BacklogApi.defaultTimeout c) timeout) = Ok reply ->
  BacklogApi.ok (RestClient.head reply) = false ->
  exists e,
    RestClient.request new_URL URL_toString fetch c endpoint params timeout fetchOptions
    = (Throw e, [(URL_toString url, RestClient.sent fetchOptions)]).
Proof.
  intros Hurl Hfetch Hok. unfold RestClient.request. rewrite Hurl.
  unfold RestClient.fetchWithTimeout. cbv zeta. rewrite Hfetch.
  cbn [bind]. unfold RestClient.read_response. rewrite Hok. cbn [negb].
  destruct (handleErrorResponse_throws (RestClient.head reply)) as [e ->].
  cbn [bind RestClient.request_catch].
  destruct (_ || _); eexists; reflexivity.
Qed.

(** X5: for the statuses 401, 404 and 429 the error [request] throws
    carries the fixed text and the status, whatever the body says: the
    [catch] of [request] leaves these messages as they are. *)
Theorem request_fixed_status_message endpoint params timeout fetchOptions url reply :
  BacklogApi.request_url new_URL c endpoint params = Ok url ->
  fetch (URL_toString url) (RestClient.sent fetchOptions)
        (default (BacklogApi.defaultTimeout c) timeout) = Ok reply ->
  In (BacklogApi.status (RestClient.head reply)) [401; 404; 429] ->
  (RestClient.request new_URL URL_toString fetch c endpoint params timeout fetchOptions).1
  = Throw (mkError "Error"
             (match BacklogApi.status (RestClient.head reply) with
              | 401 => "Invalid API key or unauthorized access (Status: 401)"
              | 404 => "Resource not found (Status: 404)"
              | _ => "Rate limit exceeded. Please try again later (Status: 429)"
              end)).
Proof.
  intros Hurl Hfetch Hstatus. unfold RestClient.request. rewrite Hurl.
  unfold RestClient.fetchWithTimeout. cbv zeta. rewrite Hfetch.
  cbn [bind fst]. unfold RestClient.read_response, BacklogApi.ok, BacklogApi.handleErrorResponse.
  destruct Hstatus as [<-|[<-|[<-|[]]]]; reflexivity.
Qed.

(** X6: a request aborted by the timer makes [request] throw
    [Request timeout]. *)
Theorem request_timeout endpoint params timeout fetchOptions url e :
  BacklogApi.request_url new_URL c endpoint params = Ok url ->
  fetch (URL_toString url) (RestClient.sent fetchOptions)
        (default (BacklogApi.defaultTimeout c) timeout) = Throw e ->
  name e = "AbortError" ->
  RestClient.request new_URL URL_toString fetch c endpoint params timeout fetchOptions
  = (Throw (mkError "Error" "Request timeout"), [(URL_toString url, RestClient.sent fetchOptions)]).
Proof.
  intros Hurl Hfetch Hname. unfold RestClient.request. rewrite Hurl.
  unfold RestClient.fetchWithTimeout. cbv zeta. rewrite Hfetch, Hname.
  reflexivity.
Qed.

Lemma starts_with_append (t s x : string) :
  starts_with t s = true -> starts_with t (s +:+ x) = true.
Proof.
  revert s. induction t as [|a t IH]; intros s; [reflexivity|].
  destruct s as [|b s]; [discriminate|].
  rewrite append_cons. cbn [starts_with].
  destruct (Ascii.eqb a b); [apply IH | discriminate].
Qed.

Lemma includes_append (s x t : string) :
  JsText.includes s t = true -> JsText.includes (s +:+ x) t = true.
Proof.
  induction s as [|b s IH]; cbn [JsText.includes].
  - rewrite orb_false_r. intros Ht. destruct t; [|discriminate].
    destruct x; reflexivity.
  - intros H. rewrite append_cons. cbn [JsText.includes]. rewrite <- append_cons.
    apply orb_true_iff in H as [H|H].
    + rewrite (starts_with_append _ _ x H). reflexivity.
    + rewrite (IH H). apply orb_true_r.
Qed.

(** X7: when [fetch] rejects with a message that contains [Failed to
    fetch] (and the request was not aborted), [request] throws the
    connection advice for the client's base URL, which quotes the
    original message and the URL. *)
Theorem request_connection_failure endpoint params timeout fetchOptions url e :
  BacklogApi.request_url new_URL c endpoint params = Ok url ->
  fetch (URL_toString url) (RestClient.sent fetchOptions)
        (default (BacklogApi.defaultTimeout c) timeout) = Throw e ->
  name e <> "AbortError" ->
  JsText.includes (message e) "Failed to fetch" = true ->
  (RestClient.request new_URL URL_toString fetch c endpoint params timeout fetchOptions).1
  = Throw (mkError "Error"
             (RestClient.connection_failed c
                (message e +:+ " (URL: " +:+ URL_toString url +:+ ")"))).
Proof.
  intros Hurl Hfetch Hname Hmsg. unfold RestClient.request. rewrite Hurl.
  unfold RestClient.fetchWithTimeout. cbv zeta. rewrite Hfetch.
  destruct (String.eqb_spec (name e) "AbortError") as [Heq|_]; [contradiction|].
  cbn [bind fst RestClient.request_catch message].
  rewrite (includes_append _ _ _ Hmsg). rewrite orb_true_r. reflexivity.
Qed.

End RestClientFacts.

(** The statement for a server that answers 500 to [POST /issues]. *)
Lemma request_not_ok_throws_witness :
  exists e,
    RestClient.request Samples.plain_URL Cases.URL_text
      (Cases.answers Cases.server_error (Throw Cases.no_json : result Types.BacklogIssue))
      Samples.client "/issues" [] None RestClient.no_init
    = (Throw e, [(Cases.URL_text Cases.issues_url, RestClient.sent RestClient.no_init)]).
Proof.
  apply (request_not_ok_throws Samples.plain_URL Cases.URL_text
           (Cases.answers Cases.server_error (Throw Cases.no_json : result Types.BacklogIssue))
           Samples.client "/issues" [] None RestClient.no_init Cases.issues_url
           (RestClient.mkReply Cases.server_error (Throw Cases.no_json)));
    reflexivity.
Defined.

(** The statement for a server that answers 401 with an empty body. *)
Lemma request_fixed_status_message_witness :
  (RestClient.request Samples.plain_URL Cases.URL_text
     (Cases.answers Cases.unauthorized (Throw Cases.no_json : result Types.BacklogIssue))
     Samples.client "/issues" [] None RestClient.no_init).1
  = Throw (mkError "Error" "Invalid API key or unauthorized access (Status: 401)").
Proof.
  apply (request_fixed_status_message Samples.plain_URL Cases.URL_text
           (Cases.answers Cases.unauthorized (Throw Cases.no_json : result Types.BacklogIssue))
           Samples.client "/issues" [] None RestClient.no_init Cases.issues_url
           (RestClient.mkReply Cases.unauthorized (Throw Cases.no_json)));
    [reflexivity | reflexivity | simpl; lia].
Defined.

(** The statement for a request that the timer aborts. *)
Lemma request_timeout_witness :
  RestClient.request Samples.plain_URL Cases.URL_text
    (Cases.rejects Cases.aborted : RestClient.Fetch Types.BacklogIssue)
    Samples.client "/issues" [] None RestClient.no_init
  = (Throw (mkError "Error" "Request timeout"),
     [(Cases.URL_text Cases.issues_url, RestClient.sent RestClient.no_init)]).
Proof.
  apply (request_timeout Samples.plain_URL Cases.URL_text
           (Cases.rejects Cases.aborted : RestClient.Fetch Types.BacklogIssue)
           Samples.client "/issues" [] None RestClient.no_init Cases.issues_url Cases.aborted);
    reflexivity.
Defined.

(** The statement for a browser without a network. *)
Lemma request_connection_failure_witness :
  (RestClient.request Samples.plain_URL Cases.URL_text
     (Cases.rejects Cases.offline : RestClient.Fetch Types.BacklogIssue)
     Samples.client "/issues" [] None RestClient.no_init).1
  = Throw (mkError "Error"
             (RestClient.connection_failed Samples.client
                ("Failed to fetch (URL: " +:+ Cases.URL_text Cases.issues_url +:+ ")"))).
Proof.
  apply (request_connection_failure Samples.plain_URL Cases.URL_text
           (Cases.rejects Cases.offline : RestClient.Fetch Types.BacklogIssue)
           Samples.client "/issues" [] None RestClient.no_init Cases.issues_url Cases.offline);
    [reflexivity | reflexivity | discriminate | reflexivity].
Defined.

(** X8: the form [createIssue] posts holds exactly the defined fields:
    a scalar under its key, each element of an array under the key
    followed by [[]]; a field that is [undefined] is left out. *)
Theorem form_entries_exact (params : list (string * RestClient.Field)) (k v : string) :
  In (k, v) (RestClient.form_entries params)
  <-> (exists x, In (k, RestClient.Scalar x) params /\ v = BacklogApi.String_of x)
      \/ (exists key xs x,
            In (key, RestClient.Array xs) params /\ In x xs
            /\ k = key +:+ "[]" /\ v = BacklogApi.String_of x).
Proof.
  induction params as [|[key field] rest IH].
  - simpl. split; [contradiction|]. intros [(x & [] & _)|(key & xs & x & [] & _)].
  - destruct field as [|x|xs]; cbn [RestClient.form_entries].
    + rewrite IH. split.
      * intros [(x & Hin & Hv)|(key' & xs & x & Hin & Hx & Hk & Hv)].
        -- left. exists x. split; [now right | exact Hv].
        -- right. exists key', xs, x. repeat split; try assumption. now right.
      * intros [(x & [Heq|Hin] & Hv)|(key' & xs & x & [Heq|Hin] & Hx & Hk & Hv)];
          try discriminate.
        -- left. now exists x.
        -- right. now exists key', xs, x.
    + cbn [In]. rewrite IH. split.
      * intros [Heq|[(y & Hin & Hv)|(key' & xs & y & Hin & Hy & Hk & Hv)]].
        -- injection Heq as <- <-. left. exists x. split; [now left | reflexivity].
        -- left. exists y. split; [now right | exact Hv].
        -- right. exists key', xs, y. repeat split; try assumption. now right.
      * intros [(y & [Heq|Hin] & Hv)|(key' & xs & y & [Heq|Hin] & Hy & Hk & Hv)];
          try discriminate.
        -- injection Heq as <- <-. left. now subst v.
        -- right. left. now exists y.
        -- right. right. now exists key', xs, y.
    + rewrite in_app_iff, IH, in_map_iff. split.
      * intros [(y & Heq & Hy)|[(y & Hin & Hv)|(key' & ys & y & Hin & Hy & Hk & Hv)]].
        -- injection Heq as <- <-. right. exists key, xs, y.
           repeat split; try assumption; now left.
        -- left. exists y. split; [now right | exact Hv].
        -- right. exists key', ys, y. repeat split; try assumption. now right.
      * intros [(y & [Heq|Hin] & Hv)|(key' & ys & y & [Heq|Hin] & Hy & Hk & Hv)];
          try discriminate.
        -- right. left. now exists y.
        -- injection Heq as <- <-. left. exists y. split; [now subst | exact Hy].
        -- right. right. now exists key', ys, y.
Qed.

(** ** The handlers of the popup *)

Lemma trim_start_nil (l : list ascii) :
  trim_start l = [] <-> forallb is_trim_space l = true.
Proof.
  induction l as [|c l IH]; simpl; [tauto|].
  destruct (is_trim_space c); simpl; [exact IH|]. split; discriminate.
Qed.

Lemma trim_start_head (l : list ascii) c r :
  trim_start l = c :: r -> is_trim_space c = false.
Proof.
  induction l as [|d l IH]; simpl; [discriminate|].
  destruct (is_trim_space d) eqn:Hd; [exact IH|]. now intros [= <- _].
Qed.

(** [trim] empties a text exactly when it holds white space only. *)
Lemma trim_blank (s : string) : trim s = "" <-> JsText.blank s = true.
Proof.
  unfold trim, JsText.blank. set (l := list_ascii_of_string s). split.
  - intros Hempty.
    assert (Hnil : trim_start (rev (trim_start l)) = []).
    { destruct (trim_start (rev (trim_start l))) as [|c r] eqn:E; [reflexivity|].
      destruct (rev (c :: r)) eqn:Er; [|discriminate].
      apply (f_equal (@length ascii)) in Er. rewrite length_rev in Er. discriminate. }
    apply trim_start_nil in Hnil.
    destruct (trim_start l) as [|c r] eqn:E; [now apply trim_start_nil|].
    pose proof (trim_start_head l c r E) as Hc.
    rewrite forallb_forall in Hnil. specialize (Hnil c).
    rewrite Hnil in Hc; [discriminate|]. apply in_rev. rewrite rev_involutive. now left.
  - intros Hblank. apply trim_start_nil in Hblank. rewrite Hblank. reflexivity.
Qed.

Section PopupHandlerFacts.

Variable new_URL : string -> result BacklogApi.URL.
Variable URL_toString : BacklogApi.URL -> string.
Variable URLSearchParams_toString : list (string * string) -> string.
Variable fetch_attachment : RestClient.Fetch Types.BacklogAttachment.
Variable fetch_issue : RestClient.Fetch Types.BacklogIssue.

(** X9: with a title of white space only, or without a project, an
    issue type or a priority, [handleSubmit] makes no request: it
    shows the message for missing fields and leaves the status as it
    was. *)
Theorem handleSubmit_requires_fields (iso : string) (s : PopupHandlers.Submit) :
  JsText.blank (Popup.title (PopupHandlers.form s)) = true
  \/ Popup.selectedProjectId (PopupHandlers.form s) = ""
  \/ Popup.selectedIssueTypeId (PopupHandlers.form s) = ""
  \/ Popup.selectedPriorityId (PopupHandlers.form s) = "" ->
  PopupHandlers.handleSubmit new_URL URL_toString URLSearchParams_toString
    fetch_attachment fetch_issue iso s
  = (PopupHandlers.mkSubmit
       (Popup.setErrorMessage (PopupHandlers.form s) PopupHandlers.required_message)
       (PopupHandlers.apiKey s) (PopupHandlers.submitStatus s)
       (PopupHandlers.createdIssueUrl s),
     []).
Proof.
  intros Hmissing. unfold PopupHandlers.handleSubmit.
  assert (Hreq : PopupHandlers.required_missing (PopupHandlers.form s) = true).
  { unfold PopupHandlers.required_missing.
    destruct Hmissing as [H|[H|[H|H]]].
    - apply trim_blank in H. rewrite H. reflexivity.
    - rewrite H. cbn. rewrite orb_true_r. reflexivity.
    - rewrite H. cbn. rewrite orb_true_r. reflexivity.
    - rewrite H. cbn. rewrite orb_true_r. reflexivity. }
  now rewrite Hreq.
Qed.


(** X11: when the server refuses the upload of the screenshot,
    [handleSubmit] ends in [error] after that one request: the issue
    is not created. *)
Theorem handleSubmit_upload_refused (iso : string) (s : PopupHandlers.Submit)
        client dataUrl blob url reply :
  PopupHandlers.required_missing (PopupHandlers.form s) = false ->
  PopupHandlers.new_client (Popup.space (PopupHandlers.form s)) (PopupHandlers.apiKey s)
  = Ok client ->
  Popup.screenshotDataUrl (PopupHandlers.form s) = Some dataUrl ->
  dataUrl <> "" ->
  Popup.dataURLtoBlob dataUrl = Ok blob ->
  BacklogApi.upload_url new_URL client = Ok url ->
  fetch_attachment
    (URL_toString url)
    (RestClient.mkInit (Some "POST") []
       (Some (RestClient.FileBody "file"
                ("screenshot-" +:+ JsText.replace_colon_dot iso +:+ ".png")
                (or_else (Some (blob_type blob)) "image/png") (blob_bytes blob))))
    (BacklogApi.defaultTimeout client) = Ok reply ->
  BacklogApi.ok (RestClient.head reply) = false ->
  exists e,
    BacklogApi.handleErrorResponse (RestClient.head reply) = Throw e
    /\ PopupHandlers.handleSubmit new_URL URL_toString URLSearchParams_toString
         fetch_attachment fetch_issue iso s
       = (PopupHandlers.mkSubmit
            (Popup.setErrorMessage (PopupHandlers.form s) (message e))
            (PopupHandlers.apiKey s) PopupHandlers.error (PopupHandlers.createdIssueUrl s),
          [(URL_toString url,
            RestClient.mkInit (Some "POST") []
              (Some (RestClient.FileBody "file"
                       ("screenshot-" +:+ JsText.replace_colon_dot iso +:+ ".png")
                       (or_else (Some (blob_type blob)) "image/png") (blob_bytes blob))))]).
Proof.
  intros Hreq Hclient Hshot Hne Hblob Hurl Hfetch Hok.
  destruct (handleErrorResponse_throws (RestClient.head reply)) as [e He].
  exists e. split; [exact He|].
  unfold PopupHandlers.handleSubmit. rewrite Hreq. cbv zeta.
  unfold PopupHandlers.handleSubmit_try. cbn [PopupHandlers.form PopupHandlers.apiKey].
  change (Popup.space (Popup.setErrorMessage (PopupHandlers.form s) ""))
    with (Popup.space (PopupHandlers.form s)).
  rewrite Hclient. unfold PopupHandlers.upload_screenshot.
  change (Popup.screenshotDataUrl (Popup.setErrorMessage (PopupHandlers.form s) ""))
    with (Popup.screenshotDataUrl (PopupHandlers.form s)).
  rewrite Hshot, (truthy_nonempty dataUrl Hne). cbn [from_option]. unfold id. rewrite Hblob.
  unfold RestClient.uploadAttachmentFromBlob. rewrite Hurl.
  unfold RestClient.fetchWithTimeout. rewrite Hfetch. cbn [bind].
  unfold RestClient.read_response. rewrite Hok, He. reflexivity.
Qed.

Lemma issue_params_ignores_message (f : Popup.State) (m : string) attachmentId :
  PopupHandlers.issue_params (Popup.setErrorMessage f m) attachmentId
  = PopupHandlers.issue_params f attachmentId.
Proof. reflexivity. Qed.

(** X12: with the required fields, stored credentials, no screenshot
    and a server that answers [POST /issues] with an OK response,
    [handleSubmit] makes that one request, carrying the form of the
    fields, and ends in [success] with the issue URL
    [https://<space>/view/<issue key>]. *)
Theorem handleSubmit_creates_issue (iso : string) (s : PopupHandlers.Submit)
        (space apiKey : string) url reply issue :
  PopupHandlers.required_missing (PopupHandlers.form s) = false ->
  Popup.space (PopupHandlers.form s) = Some space ->
  space <> "" -> has_line_terminator space = false ->
  PopupHandlers.apiKey s = Some apiKey -> apiKey <> "" ->
  Popup.screenshotDataUrl (PopupHandlers.form s) = None ->
  new_URL (("https://" +:+ space +:+ "/api/v2") +:+ "/issues") = Ok url ->
  fetch_issue
    (URL_toString (BacklogApi.searchParams_append url "apiKey" apiKey))
    (RestClient.mkInit (Some "POST")
       [("Content-Type", "application/x-www-form-urlencoded")]
       (Some (RestClient.TextBody
                (URLSearchParams_toString
                   (RestClient.form_entries
                      (PopupHandlers.issue_params (PopupHandlers.form s) None))))))
    30000 = Ok reply ->
  BacklogApi.ok (RestClient.head reply) = true ->
  RestClient.data reply = Ok issue ->
  PopupHandlers.handleSubmit new_URL URL_toString URLSearchParams_toString
    fetch_attachment fetch_issue iso s
  = (PopupHandlers.mkSubmit
       (Popup.setErrorMessage (PopupHandlers.form s) "")
       (Some apiKey) PopupHandlers.success
       ("https://" +:+ space +:+ "/view/" +:+ Types.issueKey issue),
     [(URL_toString (BacklogApi.searchParams_append url "apiKey" apiKey),
       RestClient.mkInit (Some "POST")
         [("Content-Type", "application/x-www-form-urlencoded")]
         (Some (RestClient.TextBody
                  (URLSearchParams_toString
                     (RestClient.form_entries
                        (PopupHandlers.issue_params (PopupHandlers.form s) None)))))) ]).
Proof.
  intros Hreq Hspace Hne Hlt Hkey Hk Hshot Hurl Hfetch Hok Hdata.
  unfold PopupHandlers.handleSubmit. rewrite Hreq. cbv zeta.
  unfold PopupHandlers.handleSubmit_try. cbn [PopupHandlers.form PopupHandlers.apiKey].
  change (Popup.space (Popup.setErrorMessage (PopupHandlers.form s) ""))
    with (Popup.space (PopupHandlers.form s)).
  rewrite Hspace, Hkey. unfold PopupHandlers.new_client. cbn [from_option]. unfold id.
  unfold BacklogApi.constructor.
  rewrite (truthy_nonempty space Hne), (truthy_nonempty apiKey Hk). cbn [negb orb].
  unfold PopupHandlers.upload_screenshot.
  change (Popup.screenshotDataUrl (Popup.setErrorMessage (PopupHandlers.form s) ""))
    with (Popup.screenshotDataUrl (PopupHandlers.form s)).
  rewrite Hshot. cbn [truthy]. rewrite issue_params_ignores_message.
  unfold RestClient.createIssue, RestClient.request, BacklogApi.request_url.
  cbn [BacklogApi.baseURL BacklogApi.apiKey BacklogApi.set_property].
  rewrite Hurl. cbn [bind BacklogApi.append_defined BacklogApi.String_of].
  unfold RestClient.fetchWithTimeout, RestClient.sent.
  cbn [RestClient.method RestClient.headers RestClient.body from_option
       BacklogApi.defaultTimeout]. unfold id.
  rewrite Hfetch. cbn [bind]. unfold RestClient.read_response. rewrite Hok, Hdata.
  cbn [negb RestClient.request_catch app].
  unfold BacklogApi.getIssueUrl. cbn [BacklogApi.baseURL].
  rewrite (match_space_baseURL space Hne Hlt), (or_else_nonempty space "" Hne).
  reflexivity.
Qed.

End PopupHandlerFacts.

(** The statement for a title of three spaces. *)
Lemma handleSubmit_requires_fields_witness :
  PopupHandlers.handleSubmit Samples.plain_URL Cases.URL_text Cases.form_text
    (Cases.rejects Cases.offline) (Cases.rejects Cases.offline)
    Cases.iso_time Cases.with_blank_title
  = (PopupHandlers.mkSubmit
       (Popup.setErrorMessage Cases.blank_form PopupHandlers.required_message)
       (Some "secret") PopupHandlers.idle "",
     []).
Proof.
  apply (handleSubmit_requires_fields Samples.plain_URL Cases.URL_text Cases.form_text
           (Cases.rejects Cases.offline) (Cases.rejects Cases.offline)
           Cases.iso_time Cases.with_blank_title).
  left. reflexivity.
Defined.


(** The statement for a two-byte screenshot and a server that
    answers 500 to the upload. *)
Lemma handleSubmit_upload_refused_witness :
  exists e,
    BacklogApi.handleErrorResponse Cases.server_error = Throw e
    /\ PopupHandlers.handleSubmit Samples.plain_URL Cases.URL_text Cases.form_text
         (Cases.answers Cases.server_error (Throw Cases.no_json))
         (Cases.rejects Cases.offline) Cases.iso_time Cases.with_screenshot
       = (PopupHandlers.mkSubmit
            (Popup.setErrorMessage (PopupHandlers.form Cases.with_screenshot) (message e))
            (Some "secret") PopupHandlers.error "",
          [(Cases.URL_text Cases.upload_address,
            RestClient.mkInit (Some "POST") []
              (Some (RestClient.FileBody "file" "screenshot-2026-01-02T03-04-05-678Z.png"
                       "image/png" [104; 105])))]).
Proof.
  apply (handleSubmit_upload_refused Samples.plain_URL Cases.URL_text Cases.form_text
           (Cases.answers Cases.server_error (Throw Cases.no_json))
           (Cases.rejects Cases.offline) Cases.iso_time Cases.with_screenshot
           Samples.client "data:image/png;base64,aGk=" (mkBlob [104; 105] "image/png")
           Cases.upload_address
           (RestClient.mkReply Cases.server_error (Throw Cases.no_json)));
    try reflexivity.
  discriminate.
Defined.

(** The statement for the complete form and a server that answers
    201 with the issue WEB-7. *)
Lemma handleSubmit_creates_issue_witness :
  PopupHandlers.handleSubmit Samples.plain_URL Cases.URL_text Cases.form_text
    (Cases.rejects Cases.offline) (Cases.answers Cases.created (Ok Cases.new_issue))
    Cases.iso_time Cases.ready
  = (PopupHandlers.mkSubmit (Popup.setErrorMessage Cases.ready_form "") (Some "secret")
       PopupHandlers.success "https://example.backlog.com/view/WEB-7",
     [(Cases.URL_text Cases.issues_url,
       RestClient.mkInit (Some "POST")
         [("Content-Type", "application/x-www-form-urlencoded")]
         (Some (RestClient.TextBody
                  "projectId=12&summary=Broken link&issueTypeId=3&priorityId=2&description=URL: https://example.com")))]).
Proof.
  apply (handleSubmit_creates_issue Samples.plain_URL Cases.URL_text Cases.form_text
           (Cases.rejects Cases.offline) (Cases.answers Cases.created (Ok Cases.new_issue))
           Cases.iso_time Cases.ready "example.backlog.com" "secret"
           (BacklogApi.mkURL "https://example.backlog.com/api/v2/issues" [])
           (RestClient.mkReply Cases.created (Ok Cases.new_issue)) Cases.new_issue);
    try reflexivity; discriminate.
Defined.

(** *** The filters of the comboboxes *)

Lemma lower_char_idempotent (c : ascii) :
  JsText.lower_char (JsText.lower_char c) = JsText.lower_char c.
Proof. destruct c as [[] [] [] [] [] [] [] []]; vm_compute; reflexivity. Qed.

Lemma toLowerCase_idempotent (s : string) :
  JsText.toLowerCase (JsText.toLowerCase s) = JsText.toLowerCase s.
Proof.
  induction s as [|c s IH]; simpl; [reflexivity|].
  now rewrite lower_char_idempotent, IH.
Qed.

Lemma toLowerCase_empty (s : string) :
  String.eqb (JsText.toLowerCase s) "" = String.eqb s "".
Proof. destruct s; reflexivity. Qed.

Lemma eqb_empty_of_lower (q q' : string) :
  JsText.toLowerCase q = JsText.toLowerCase q' -> String.eqb q "" = String.eqb q' "".
Proof. intros H. now rewrite <- (toLowerCase_empty q), <- (toLowerCase_empty q'), H. Qed.

(** X13: the three filters of the popup do not see the letter case
    of the query: two queries with the same lower-case form select
    the same projects, issue types and users. *)
Theorem filters_ignore_query_case (q q' : string)
        (projects : list Popup.BacklogProject)
        (issueTypes : list Types.BacklogIssueType) (users : list Types.BacklogUser) :
  JsText.toLowerCase q = JsText.toLowerCase q' ->
  PopupHandlers.filteredProjects projects q = PopupHandlers.filteredProjects projects q'
  /\ PopupHandlers.filteredIssueTypes issueTypes q = PopupHandlers.filteredIssueTypes issueTypes q'
  /\ PopupHandlers.filteredUsers users q = PopupHandlers.filteredUsers users q'.
Proof.
  intros Hq. pose proof (eqb_empty_of_lower q q' Hq) as He.
  unfold PopupHandlers.filteredProjects, PopupHandlers.filteredIssueTypes,
    PopupHandlers.filteredUsers.
  rewrite He, Hq. repeat split.
Qed.

(** The statement for the queries [web] and [WEB]. *)
Lemma filters_ignore_query_case_witness :
  PopupHandlers.filteredProjects [Popup.mkProject 12 "WEB" "Web site" false] "web"
  = PopupHandlers.filteredProjects [Popup.mkProject 12 "WEB" "Web site" false] "WEB"
  /\ PopupHandlers.filteredIssueTypes [] "web" = PopupHandlers.filteredIssueTypes [] "WEB"
  /\ PopupHandlers.filteredUsers [] "web" = PopupHandlers.filteredUsers [] "WEB".
Proof.
  apply (filters_ignore_query_case "web" "WEB" [Popup.mkProject 12 "WEB" "Web site" false] [] []).
  reflexivity.
Defined.

Lemma starts_with_refl (s : string) : starts_with s s = true.
Proof. induction s as [|c s IH]; simpl; [reflexivity|]. now rewrite Ascii.eqb_refl. Qed.

Lemma includes_refl (s : string) : JsText.includes s s = true.
Proof. destruct s; cbn [JsText.includes]; now rewrite starts_with_refl. Qed.

(** X14: the project filter keeps the order and only projects of the
    list, keeps them all for the empty query, and always keeps a
    project whose key or name is the query up to letter case. *)
Theorem filteredProjects_selection (projects : list Popup.BacklogProject) (q : string) :
  sublist (PopupHandlers.filteredProjects projects q) projects
  /\ PopupHandlers.filteredProjects projects "" = projects
  /\ (forall p,
        In p projects ->
        JsText.toLowerCase (Popup.projectKey p) = JsText.toLowerCase q
        \/ JsText.toLowerCase (Popup.project_name p) = JsText.toLowerCase q ->
        In p (PopupHandlers.filteredProjects projects q)).
Proof.
  split; [|split].
  - unfold PopupHandlers.filteredProjects. destruct (String.eqb q ""); [reflexivity|].
    induction projects as [|p ps IH]; simpl; [constructor|].
    destruct (_ || _); [now apply sublist_skip | now apply sublist_cons].
  - reflexivity.
  - intros p Hin Hmatch. unfold PopupHandlers.filteredProjects.
    destruct (String.eqb q ""); [exact Hin|].
    apply filter_In. split; [exact Hin|].
    destruct Hmatch as [<-|<-]; rewrite includes_refl; [apply orb_true_r | reflexivity].
Qed.

(** *** Changing the project *)




(** ** The connection test of the settings page *)

Lemma testConnection_true new_URL URL_toString (fetch : RestClient.Fetch Types.BacklogUser)
      c b calls :
  RestClient.testConnection new_URL URL_toString fetch c = (Ok b, calls) -> b = true.
Proof.
  unfold RestClient.testConnection.
  destruct (RestClient.getMyself new_URL URL_toString fetch c) as [[u|e] calls'];
    now intros [= <- _].
Qed.

(** X16: [handleTestConnection] writes the credentials to the synced
    storage only after [testConnection] has succeeded with them;
    otherwise the storage is as it was. *)
Theorem handleTestConnection_stores_after_success
        new_URL URL_toString
        (fetch_myself : RestClient.Fetch Types.BacklogUser)
        (fetch_projects : RestClient.Fetch (list Popup.BacklogProject))
        (fetch_priorities : RestClient.Fetch (list Types.BacklogPriority))
        (st : Options.Settings) (sync : gmap string string) :
  let r := Options.handleTestConnection new_URL URL_toString fetch_myself fetch_projects
             fetch_priorities st sync in
  r.1.2 = sync
  \/ (exists client calls,
        BacklogApi.constructor (Options.localSpace st) (Options.localApiKey st) = Ok client
        /\ RestClient.testConnection new_URL URL_toString fetch_myself client = (Ok true, calls)
        /\ r.1.2 = <["space" := Options.localSpace st]>
                     (<["apiKey" := Options.localApiKey st]> sync)).
Proof.
  cbv zeta. unfold Options.handleTestConnection.
  destruct (negb _ || negb _); [now left|].
  cbn [Options.localApiKey Options.localSpace].
  destruct (BacklogApi.constructor _ _) as [client|e]; [|now left].
  destruct (RestClient.testConnection new_URL URL_toString fetch_myself client)
    as [[b|e] calls1] eqn:Htest; [|now left].
  pose proof (testConnection_true _ _ _ _ _ _ Htest) as ->.
  right. exists client, calls1. split; [reflexivity|]. split; [exact Htest|].
  destruct (RestClient.getProjects _ _ _ _) as [[projectList|e] calls2]; [|reflexivity].
  destruct (RestClient.getPriorities _ _ _ _) as [[priorityList|e] calls3]; reflexivity.
Qed.

(** X17: when the test succeeds and the list of projects cannot be
    loaded afterwards, the page ends in status [error] with the
    message of that failure, although the credentials have been
    stored; the list of priorities is not requested. *)
Theorem handleTestConnection_projects_fail
        new_URL URL_toString
        (fetch_myself : RestClient.Fetch Types.BacklogUser)
        (fetch_projects : RestClient.Fetch (list Popup.BacklogProject))
        (fetch_priorities : RestClient.Fetch (list Types.BacklogPriority))
        (st : Options.Settings) (sync : gmap string string) client calls1 calls2 e :
  Options.localApiKey st <> "" -> Options.localSpace st <> "" ->
  BacklogApi.constructor (Options.localSpace st) (Options.localApiKey st) = Ok client ->
  RestClient.testConnection new_URL URL_toString fetch_myself client = (Ok true, calls1) ->
  RestClient.getProjects new_URL URL_toString fetch_projects client = (Throw e, calls2) ->
  Options.handleTestConnection new_URL URL_toString fetch_myself fetch_projects
    fetch_priorities st sync
  = (Options.mkSettings (Options.localApiKey st) (Options.localSpace st) Options.error
       (message e) (Options.projects st) (Options.priorities st),
     <["space" := Options.localSpace st]> (<["apiKey" := Options.localApiKey st]> sync),
     (calls1 ++ calls2)%list).
Proof.
  intros Hk Hs Hclient Htest Hprojects. unfold Options.handleTestConnection.
  rewrite (truthy_nonempty _ Hk), (truthy_nonempty _ Hs). cbn [negb orb].
  cbn [Options.localApiKey Options.localSpace].
  rewrite Hclient, Htest, Hprojects. reflexivity.
Qed.

(** The statement for a server that knows the user and answers 500
    to the list of projects. *)
Lemma handleTestConnection_projects_fail_witness :
  Options.handleTestConnection Samples.plain_URL Cases.URL_text
    (Cases.answers Cases.created (Ok (Types.mkUser 1 "admin" "Admin")))
    (Cases.answers Cases.server_error (Throw Cases.no_json))
    (Cases.rejects Cases.offline)
    (Options.mkSettings "secret" "example.backlog.com" Options.idle "" [] []) ∅
  = (Options.mkSettings "secret" "example.backlog.com" Options.error
       "No such project (Status: 500)" [] [],
     <["space" := "example.backlog.com"]> (<["apiKey" := "secret"]> ∅),
     ([(Cases.URL_text
          (BacklogApi.mkURL "https://example.backlog.com/api/v2/users/myself"
                            [("apiKey", "secret")]),
        RestClient.sent RestClient.no_init)]
      ++ [(Cases.URL_text
             (BacklogApi.mkURL "https://example.backlog.com/api/v2/projects"
                               [("apiKey", "secret")]),
           RestClient.sent RestClient.no_init)])%list).
Proof.
  apply (handleTestConnection_projects_fail Samples.plain_URL Cases.URL_text
           (Cases.answers Cases.created (Ok (Types.mkUser 1 "admin" "Admin")))
           (Cases.answers Cases.server_error (Throw Cases.no_json))
           (Cases.rejects Cases.offline)
           (Options.mkSettings "secret" "example.backlog.com" Options.idle "" [] []) ∅
           Samples.client
           [(Cases.URL_text
               (BacklogApi.mkURL "https://example.backlog.com/api/v2/users/myself"
                                 [("apiKey", "secret")]),
             RestClient.sent RestClient.no_init)]
           [(Cases.URL_text
               (BacklogApi.mkURL "https://example.backlog.com/api/v2/projects"
                                 [("apiKey", "secret")]),
             RestClient.sent RestClient.no_init)]
           (mkError "Error" "No such project (Status: 500)"));
    try reflexivity; discriminate.
Defined.

(** ** More on the content script *)

Section ContentScriptRuns.

Import ContentScript Effects.

Variable browser : Browser.

Ltac quiet_step :=
  first
    [ apply emits_ret
    | apply emits_lift
    | apply emits_document_querySelector
    | apply emits_element_querySelector
    | apply emits_element_getAttribute
    | apply emits_window_getSelection
    | apply emits_wait; exact I
    | apply emits_perform; exact I
    | apply emits_setReactInputValue
    | apply emits_pasteImageToEditor
    | apply emits_selectComboboxOption
    | apply emits_when
    | apply emits_bind; [|intros ?]
    | match goal with
      | |- emits _ (match ?x with _ => _ end) => destruct x
      end ].

(** After the checks on the record the first thing [fill] does is to
    wait two seconds. *)
Lemma fill_starts_with_wait (formData : Handoff.FormData) (w : World) :
  exists evs, trace (fill browser formData w).2 = (trace w ++ Wait 2000 :: evs)%list.
Proof.
  unfold fill. unfold bindM at 1. cbn [wait].
  match goal with
  | |- context [bindM ?m ?k (mkWorld ?l ?r ?t)] =>
      assert (Hrest : emits any_event (bindM m k))
  end.
  { repeat first
      [ apply (emits_weaken not_notification any_event);
          [ intros; exact I
          | first [ apply emits_setReactInputValue
                  | apply emits_pasteImageToEditor
                  | apply emits_selectComboboxOption ] ]
      | apply emits_setTimeout; exact I
      | quiet_step ]. }
  match goal with
  | |- context [bindM ?m ?k ?w1] =>
      destruct (Hrest w1) as (_ & _ & evs & Ht & _)
  end.
  exists evs. rewrite Ht. cbn [trace]. now rewrite <- app_assoc.
Qed.

Lemma notify_completes (w w' : World) :
  bindM (perform browser (AppendToHead style))
        (fun _ => bindM (perform browser (AppendToBody notification))
                        (fun _ => setTimeout 3000)) w = (Ok tt, w') ->
  exists evs, trace w' = (trace w ++ evs ++ Completion.notice)%list /\ Forall not_notification evs.
Proof.
  unfold bindM, perform, setTimeout.
  destruct (refuses browser (trace w) (AppendToHead style)); [discriminate|]. cbn [trace].
  destruct (refuses browser _ (AppendToBody notification)); [discriminate|]. cbn [trace].
  intros [= <-]. exists []. split; [|constructor]. cbn [trace app Completion.notice].
  now rewrite <- !app_assoc.
Qed.

Lemma bind_completes {A} (m : M A) (k : A -> M unit) :
  emits not_notification m ->
  (forall a w w', k a w = (Ok tt, w') ->
     exists evs, trace w' = (trace w ++ evs ++ Completion.notice)%list /\ Forall not_notification evs) ->
  forall w w', bindM m k w = (Ok tt, w') ->
    exists evs, trace w' = (trace w ++ evs ++ Completion.notice)%list /\ Forall not_notification evs.
Proof.
  intros Hm Hk w w'. unfold bindM.
  destruct (Hm w) as (_ & _ & evs & Ht & HP).
  destruct (m w) as [[a|e] w1]; [|discriminate]. cbn [snd] in Ht.
  intros Hrun. destruct (Hk a w1 w' Hrun) as (evs' & Ht' & HP').
  exists (evs ++ evs')%list. split.
  - rewrite Ht', Ht. now rewrite <- !app_assoc.
  - now apply Forall_app.
Qed.

Lemma fill_completes (formData : Handoff.FormData) (w w' : World) :
  fill browser formData w = (Ok tt, w') ->
  exists evs, trace w' = (trace w ++ evs ++ Completion.notice)%list /\ Forall not_notification evs.
Proof.
  revert w w'. unfold fill.
  repeat first
    [ exact notify_completes
    | apply bind_completes; [|intros ?]
    | quiet_step ].
Qed.

End ContentScriptRuns.

(** X18: a run of [fillForm] that gets past the checks on the record
    and completes has, as its last three actions on the page, added
    the style sheet and the notification and set the timer; before
    them it appended no notification. This holds whether or not any
    field of the form was found. *)
Theorem fillForm_completed_run_notifies
        (browser : ContentScript.Browser) (w w' : ContentScript.World)
        (fd : Handoff.FormData) :
  ContentScript.local w !! Handoff.key = Some fd ->
  ContentScript.too_old browser fd = false ->
  ContentScript.nothing_to_fill fd = false ->
  ContentScript.fillForm browser w = (Ok tt, w') ->
  exists evs,
    ContentScript.trace w' = (ContentScript.trace w ++ evs ++ Completion.notice)%list
    /\ Forall Effects.not_notification evs.
Proof.
  intros Hrec Hfresh Hfields. rewrite (fillForm_with_record browser w fd Hrec). cbv zeta.
  rewrite Hfresh, Hfields. intros Hrun.
  exact (fill_completes browser fd _ w' Hrun).
Qed.

(** The statement for the sample record read two seconds after it
    was staged. *)
Lemma fillForm_completed_run_notifies_witness :
  exists evs,
    ContentScript.trace
      (ContentScript.fillForm (Samples.page 3000) (Samples.world Samples.staged)).2
    = (ContentScript.trace (Samples.world Samples.staged) ++ evs ++ Completion.notice)%list
    /\ Forall Effects.not_notification evs.
Proof.
  apply (fillForm_completed_run_notifies (Samples.page 3000) (Samples.world Samples.staged)
           (ContentScript.fillForm (Samples.page 3000) (Samples.world Samples.staged)).2
           Samples.staged);
    [reflexivity | reflexivity | reflexivity | vm_compute; reflexivity].
Defined.

(** ** From the popup to the page *)

Lemma stored_summary_truthy (title : string) :
  JsText.blank title = false -> truthy (or_null (trim title)) = true.
Proof.
  intros Hblank. destruct (trim title) eqn:E; [|reflexivity].
  apply trim_blank in E. congruence.
Qed.



(** X20: the record staged by the second copy of
    [openBacklogIssuePage] (src/unnamed/part_001) never expires: for a
    form with a title, [fillForm] starts to fill the page whatever the
    clock reads. *)
Theorem handoff_copy_never_expires (f : Popup.State) (x : Popup.Extension) p
        (browser : ContentScript.Browser) removed trace :
  Popup.find_selected f = Some p ->
  truthy (Popup.space f) = true ->
  JsText.blank (Popup.title f) = false ->
  exists evs,
    ContentScript.trace
      (ContentScript.fillForm browser
         (ContentScript.mkWorld (Popup.local (PopupCopy.openBacklogIssuePage f x))
                                removed trace)).2
    = (trace ++ ContentScript.Wait 2000 :: evs)%list.
Proof.
  intros Hp Hs Htitle.
  unfold PopupCopy.openBacklogIssuePage. rewrite Hp, Hs. cbn [negb Popup.local].
  set (record := Handoff.mkFormData _ _ _ _ _ _ _).
  set (w := ContentScript.mkWorld _ removed trace).
  assert (Hrec : ContentScript.local w !! Handoff.key = Some record)
    by apply lookup_insert_eq.
  rewrite (fillForm_with_record browser w record Hrec). cbv zeta.
  change (ContentScript.too_old browser record) with false. cbv iota.
  assert (Hfields : ContentScript.nothing_to_fill record = false).
  { unfold ContentScript.nothing_to_fill. cbn [Handoff.summary record].
    now rewrite (stored_summary_truthy _ Htitle). }
  rewrite Hfields. apply fill_starts_with_wait.
Qed.

(** The statement for the sample form, read a long time after. *)
Lemma handoff_copy_never_expires_witness :
  exists evs,
    ContentScript.trace
      (ContentScript.fillForm (Samples.page 1000000000000)
         (ContentScript.mkWorld
            (Popup.local (PopupCopy.openBacklogIssuePage Cases.ready_form
                            Samples.empty_extension)) [] [])).2
    = ([] ++ ContentScript.Wait 2000 :: evs)%list.
Proof.
  apply (handoff_copy_never_expires Cases.ready_form Samples.empty_extension
           (Popup.mkProject 12 "WEB" "Web site" false) (Samples.page 1000000000000) [] []);
    reflexivity.
Defined.

(** *** What [openBacklogIssuePage] stages and opens *)

Lemma find_selected_none (f : Popup.State) :
  (forall p, In p (Popup.projects f) -> pretty (Popup.id p) <> Popup.selectedProjectId f) ->
  Popup.find_selected f = None.
Proof.
  intros Hnone. unfold Popup.find_selected.
  destruct (List.find _ (Popup.projects f)) as [p|] eqn:Hfind; [|reflexivity].
  apply find_some in Hfind as [Hin Heq]. apply String.eqb_eq in Heq.
  now destruct (Hnone p Hin).
Qed.

(** X21: when no project of the list has the selected id, or no space
    is configured, [openBacklogIssuePage] stages nothing and opens no
    tab. *)
Theorem openBacklogIssuePage_without_target (now : Z) (f : Popup.State) (x : Popup.Extension) :
  (forall p, In p (Popup.projects f) -> pretty (Popup.id p) <> Popup.selectedProjectId f)
  \/ Popup.space f = None \/ Popup.space f = Some "" ->
  Popup.openBacklogIssuePage now f x = x.
Proof.
  intros [Hnone|Hspace]; unfold Popup.openBacklogIssuePage.
  - now rewrite (find_selected_none f Hnone).
  - destruct (Popup.find_selected f); [|reflexivity].
    destruct Hspace as [-> | ->]; reflexivity.
Qed.

(** The statement for a form whose space is not configured. *)
Lemma openBacklogIssuePage_without_target_witness :
  Popup.openBacklogIssuePage 1000
    (Popup.mkState None "Broken link" "" "12" "3" "2" ""
                   [Popup.mkProject 12 "WEB" "Web site" false] "" None false)
    Samples.empty_extension
  = Samples.empty_extension.
Proof.
  apply (openBacklogIssuePage_without_target 1000
           (Popup.mkState None "Broken link" "" "12" "3" "2" ""
                          [Popup.mkProject 12 "WEB" "Web site" false] "" None false)
           Samples.empty_extension).
  right. left. reflexivity.
Defined.

(** X22: for a selected project and a configured space,
    [openBacklogIssuePage] opens exactly one tab, on
    [https://<space>/add/<project key>], changes no other key of the
    storage, and stages the trimmed title as the summary, or [null]
    when the title is blank. *)
Theorem openBacklogIssuePage_stages_and_opens
        (now : Z) (f : Popup.State) (x : Popup.Extension) p (space : string) :
  Popup.find_selected f = Some p ->
  Popup.space f = Some space -> space <> "" ->
  let x' := Popup.openBacklogIssuePage now f x in
  Popup.opened_tabs x'
  = (Popup.opened_tabs x ++ ["https://" +:+ space +:+ "/add/" +:+ Popup.projectKey p])%list
  /\ (forall k, k <> Handoff.key -> Popup.local x' !! k = Popup.local x !! k)
  /\ (Handoff.summary <$> (Popup.local x' !! Handoff.key))
     = Some (if JsText.blank (Popup.title f) then None else Some (trim (Popup.title f))).
Proof.
  intros Hp Hs Hne. cbv zeta. unfold Popup.openBacklogIssuePage.
  rewrite Hp, Hs, (truthy_nonempty space Hne). cbn [negb Popup.opened_tabs Popup.local].
  split; [reflexivity|]. split.
  - intros k Hk. now apply lookup_insert_ne.
  - rewrite lookup_insert_eq. cbn [fmap option_fmap option_map Handoff.summary].
    f_equal. destruct (JsText.blank (Popup.title f)) eqn:Hb.
    + apply trim_blank in Hb. now rewrite Hb.
    + destruct (trim (Popup.title f)) eqn:E; [|reflexivity].
      apply trim_blank in E. congruence.
Qed.

(** The statement for the sample form. *)
Lemma openBacklogIssuePage_stages_and_opens_witness :
  let x' := Popup.openBacklogIssuePage 1000 Cases.ready_form Samples.empty_extension in
  Popup.opened_tabs x'
  = (Popup.opened_tabs Samples.empty_extension
       ++ ["https://" +:+ "example.backlog.com" +:+ "/add/"
             +:+ Popup.projectKey (Popup.mkProject 12 "WEB" "Web site" false)])%list
  /\ (forall k, k <> Handoff.key ->
                Popup.local x' !! k = Popup.local Samples.empty_extension !! k)
  /\ (Handoff.summary <$> (Popup.local x' !! Handoff.key))
     = Some (if JsText.blank (Popup.title Cases.ready_form) then None
             else Some (trim (Popup.title Cases.ready_form))).
Proof.
  apply (openBacklogIssuePage_stages_and_opens 1000 Cases.ready_form Samples.empty_extension
           (Popup.mkProject 12 "WEB" "Web site" false) "example.backlog.com");
    [reflexivity | reflexivity | discriminate].
Defined.

(** ** The comboboxes and the editor of the page *)

(** X23: [selectComboboxOption] answers [true] exactly when it has
    opened the combobox and clicked an option, waiting 300 ms and
    200 ms; when it answers [false] it has either touched nothing,
    left the list open (no [aria-controls]), or closed it again by a
    second click on the combobox; when it throws, no option was
    clicked. It never changes the storage. *)
Theorem selectComboboxOption_outcome
        (browser : ContentScript.Browser) (labelId optionId : string) (w : ContentScript.World) :
  let r := ContentScript.selectComboboxOption browser labelId optionId w in
  let added evs := ContentScript.trace r.2 = (ContentScript.trace w ++ evs)%list in
  ContentScript.local r.2 = ContentScript.local w
  /\ match r.1 with
     | Ok true =>
         exists combobox option,
           added [ContentScript.Click combobox; ContentScript.Wait 300;
                  ContentScript.Click option; ContentScript.Wait 200]
     | Ok false =>
         added []
         \/ exists combobox,
              added [ContentScript.Click combobox; ContentScript.Wait 300]
              \/ added [ContentScript.Click combobox; ContentScript.Wait 300;
                        ContentScript.Click combobox]
     | Throw _ =>
         added []
         \/ exists combobox, added [ContentScript.Click combobox; ContentScript.Wait 300]
     end.
Proof.
  cbv zeta.
  unfold ContentScript.selectComboboxOption, ContentScript.bindM,
    ContentScript.document_querySelector, ContentScript.element_querySelector,
    ContentScript.element_getAttribute, ContentScript.perform, ContentScript.wait,
    ContentScript.ret.
  destruct (ContentScript.querySelector browser (ContentScript.trace w) _) as [[combobox|]|e];
    cbn [fst snd ContentScript.trace ContentScript.local];
    [| split; [reflexivity | left; now rewrite app_nil_r]
     | split; [reflexivity | left; now rewrite app_nil_r]].
  destruct (ContentScript.refuses browser (ContentScript.trace w) (ContentScript.Click combobox));
    cbn [fst snd ContentScript.trace ContentScript.local];
    [split; [reflexivity | left; now rewrite app_nil_r]|].
  destruct (ContentScript.getAttribute browser _ combobox "aria-controls") as [listboxId|];
    cbn [truthy negb fst snd ContentScript.trace ContentScript.local];
    [| split; [reflexivity | right; exists combobox; left; now rewrite <- app_assoc]].
  destruct listboxId as [|c listboxId];
    cbn [truthy negb fst snd ContentScript.trace ContentScript.local];
    [split; [reflexivity | right; exists combobox; left; now rewrite <- app_assoc]|].
  destruct (ContentScript.querySelector browser _ _) as [[listbox|]|e];
    cbn [fst snd ContentScript.trace ContentScript.local].
  - destruct (ContentScript.querySelectorIn browser _ listbox _) as [[option|]|e];
      cbn [fst snd ContentScript.trace ContentScript.local].
    + destruct (ContentScript.refuses browser _ (ContentScript.Click option));
        cbn [fst snd ContentScript.trace ContentScript.local].
      * split; [reflexivity | right; exists combobox; now rewrite <- app_assoc].
      * split; [reflexivity | exists combobox, option; now rewrite <- !app_assoc].
    + destruct (ContentScript.refuses browser _ (ContentScript.Click combobox));
        cbn [fst snd ContentScript.trace ContentScript.local].
      * split; [reflexivity | right; exists combobox; now rewrite <- app_assoc].
      * split; [reflexivity | right; exists combobox; right; now rewrite <- !app_assoc].
    + split; [reflexivity | right; exists combobox; now rewrite <- app_assoc].
  - destruct (ContentScript.refuses browser _ (ContentScript.Click combobox));
      cbn [fst snd ContentScript.trace ContentScript.local].
    + split; [reflexivity | right; exists combobox; now rewrite <- app_assoc].
    + split; [reflexivity | right; exists combobox; right; now rewrite <- !app_assoc].
  - split; [reflexivity | right; exists combobox; now rewrite <- app_assoc].
Qed.

Lemma split_join (sep : ascii) (lines : list string) :
  lines <> [] ->
  Forall (fun line => Base64.has_char sep line = false) lines ->
  split sep (join (String sep EmptyString) lines) = lines.
Proof.
  induction lines as [|x [|y rest] IH]; intros Hne Hall; [congruence| |].
  - apply Forall_cons in Hall as [Hx _]. now apply split_without_separator.
  - apply Forall_cons in Hall as [Hx Hrest].
    change (join (String sep EmptyString) (x :: y :: rest))
      with (x +:+ String sep EmptyString +:+ join (String sep EmptyString) (y :: rest)).
    change (String sep EmptyString +:+ join (String sep EmptyString) (y :: rest))
      with (String sep (join (String sep EmptyString) (y :: rest))).
    rewrite (split_at_first_separator _ _ _ Hx), IH; [reflexivity | discriminate | exact Hrest].
Qed.

(** X24: the HTML put into the editor has one paragraph per line of
    the description, in order, with the text of the line as it is and
    [<br>] for an empty line. *)
Theorem description_html_paragraphs (lines : list string) :
  lines <> [] ->
  Forall (fun line => Base64.has_char "010" line = false) lines ->
  ContentScript.description_html (join (String "010" EmptyString) lines)
  = join "" (map (fun line => "<p>" +:+ (if String.eqb line "" then "<br>" else line) +:+ "</p>")
                 lines).
Proof.
  intros Hne Hall. unfold ContentScript.description_html.
  rewrite (split_join _ _ Hne Hall). f_equal. apply map_ext.
  intros [|c line]; reflexivity.
Qed.

(** The statement for a description of three lines, the second one
    empty. *)
Lemma description_html_paragraphs_witness :
  ContentScript.description_html
    (join (String "010" EmptyString) ["URL: https://example.com"; ""; "<b>steps</b>"])
  = join "" (map (fun line => "<p>" +:+ (if String.eqb line "" then "<br>" else line) +:+ "</p>")
                 ["URL: https://example.com"; ""; "<b>steps</b>"]).
Proof.
  apply (description_html_paragraphs ["URL: https://example.com"; ""; "<b>steps</b>"]);
    [discriminate | repeat constructor].
Defined.

(** ** Edge cases of the decoder and of the capture handler *)

Lemma match_mime_without_colon (s : string) :
  Base64.has_char ":" s = false -> match_mime s = None.
Proof.
  induction s as [|c s IH]; [reflexivity|].
  cbn [Base64.has_char match_mime]. intros H. apply orb_false_iff in H as [Hc Hs].
  rewrite Hc. now apply IH.
Qed.

(** X25: when the part before the comma names no MIME type (it holds
    no colon), both copies decode the payload all the same and give
    the blob the type [image/png]. *)
Theorem dataURLtoBlob_default_type (header : string) (bytes : list Z) :
  Base64.has_char "," header = false ->
  Base64.has_char ":" header = false ->
  Forall Base64.is_byte bytes ->
  Popup.dataURLtoBlob (header +:+ "," +:+ string_of_list_ascii (Base64.encode bytes))
  = Ok (mkBlob bytes "image/png")
  /\ ContentScript.dataURLtoBlob (header +:+ "," +:+ string_of_list_ascii (Base64.encode bytes))
     = Ok (mkBlob bytes "image/png").
Proof.
  intros Hcomma Hcolon Hb.
  set (payload := string_of_list_ascii (Base64.encode bytes)).
  change ("," +:+ payload) with (String "," payload).
  assert (Hsplit : split "," (header +:+ String "," payload) = [header; payload]).
  { rewrite (split_at_first_separator _ _ _ Hcomma). unfold payload.
    now rewrite (split_without_separator _ _ (encode_without_comma bytes Hb)). }
  assert (Hbytes : Popup.dataURLtoBlob_loop
                     (string_of_list_ascii (map byte_char bytes))
                     (String.length (string_of_list_ascii (map byte_char bytes)))
                     (replicate (String.length (string_of_list_ascii (map byte_char bytes))) 0)
                   = bytes).
  { rewrite dataURLtoBlob_loop_char_codes, list_ascii_roundtrip, map_map.
    clear -Hb. induction Hb as [|b bytes Hbyte _ IH]; simpl; [reflexivity|].
    now rewrite (byte_char_code b Hbyte), IH. }
  split.
  - unfold Popup.dataURLtoBlob. rewrite Hsplit. cbn [lookup list_lookup].
    rewrite (match_mime_without_colon header Hcolon). cbn [or_else].
    unfold atob_arg. cbn [from_option]. unfold id, payload.
    rewrite (atob_encode bytes Hb). cbn [bind]. now rewrite Hbytes.
  - unfold ContentScript.dataURLtoBlob. rewrite Hsplit. cbn [lookup list_lookup].
    rewrite (match_mime_without_colon header Hcolon). cbn [or_else].
    unfold atob_arg. cbn [from_option]. unfold id, payload.
    rewrite (atob_encode bytes Hb). cbn [bind].
    now rewrite <- dataURLtoBlob_loops_agree, Hbytes.
Qed.

(** The statement for the header [base64] and the bytes of [hi]. *)
Lemma dataURLtoBlob_default_type_witness :
  Popup.dataURLtoBlob ("base64" +:+ "," +:+ string_of_list_ascii (Base64.encode [104; 105]))
  = Ok (mkBlob [104; 105] "image/png")
  /\ ContentScript.dataURLtoBlob
       ("base64" +:+ "," +:+ string_of_list_ascii (Base64.encode [104; 105]))
     = Ok (mkBlob [104; 105] "image/png").
Proof.
  apply (dataURLtoBlob_default_type "base64" [104; 105]); [reflexivity | reflexivity |].
  repeat constructor; unfold Base64.is_byte; lia.
Defined.

(** X26: whatever [chrome.runtime.sendMessage] settles to (a reply, no
    reply, or a rejection), [handleCaptureScreenshot] completes with
    the capturing flag cleared, and it replaces the screenshot only on
    a reply that reports success; the form fields are left as they
    were. *)
Theorem handleCaptureScreenshot_settles
        (sent : result (option Background.Reply)) (st : Popup.State) :
  exists st',
    Popup.handleCaptureScreenshot sent st = Ok st'
    /\ Popup.capturingScreenshot st' = false
    /\ (Popup.screenshotDataUrl st' = Popup.screenshotDataUrl st
        \/ exists r, sent = Ok (Some r) /\ Background.success r = true
                     /\ Popup.screenshotDataUrl st' = Background.dataUrl r)
    /\ Popup.title st' = Popup.title st
    /\ Popup.description st' = Popup.description st
    /\ Popup.selectedProjectId st' = Popup.selectedProjectId st
    /\ Popup.selectedIssueTypeId st' = Popup.selectedIssueTypeId st
    /\ Popup.selectedPriorityId st' = Popup.selectedPriorityId st
    /\ Popup.selectedAssigneeId st' = Popup.selectedAssigneeId st.
Proof.
  unfold Popup.handleCaptureScreenshot, Popup.handleCaptureScreenshot_try.
  destruct sent as [[r|]|e]; cbn [bind].
  - destruct (Background.success r) eqn:Hs; eexists; (split; [reflexivity|]); cbn.
    + repeat split. right. exists r. repeat split. exact Hs.
    + repeat split. now left.
  - eexists. split; [reflexivity|]. cbn. repeat split. now left.
  - eexists. split; [reflexivity|]. cbn. repeat split. now left.
Qed.
